(** * A model of the H3-tile geocoding SDK ([GeoSDKH3], geocoder-h3.ts)

    The SDK is a thin orchestration layer over an embedded SQL engine
    (DuckDB-WASM).  Its TypeScript control flow is modelled here as explicit
    state passing in a small state/error/trace monad; the SQL engine, the
    remote files and the host floating point are an explicit [Backend]
    record whose fields are the observable effects the SDK relies on.

    JavaScript strings are lists of UTF-16 code units ([jsstr]); rationals
    stand for JS numbers where the SDK only compares them. *)

From Stdlib Require Import List ZArith QArith Qabs Bool Sorting.Sorted
  Sorting.Permutation Strings.String Strings.Ascii Lia.
From stdpp Require Import base gmap.
Import ListNotations.

Open Scope Z_scope.

(* ------------------------------------------------------------------ *)
(** ** JavaScript strings *)

Abbreviation jsstr := (list Z).

(** ASCII literal to UTF-16 code units. *)
Definition js (s : string) : jsstr :=
  map (fun a => Z.of_nat (nat_of_ascii a)) (list_ascii_of_string s).

Definition quote_cu : Z := 39.        (* ' *)
Definition comma_cu : Z := 44.        (* , *)
Definition arabic_comma_cu : Z := 1548. (* U+060C *)

(** White space and line terminators: the set matched by [\s] and removed
    by [String.prototype.trim]. *)
Definition is_js_space (c : Z) : bool :=
  ((9 <=? c) && (c <=? 13)) || (c =? 32) || (c =? 160) || (c =? 5760)
  || ((8192 <=? c) && (c <=? 8202)) || (c =? 8232) || (c =? 8233)
  || (c =? 8239) || (c =? 8287) || (c =? 12288) || (c =? 65279).

Fixpoint drop_spaces (s : jsstr) : jsstr :=
  match s with
  | c :: s' => if is_js_space c then drop_spaces s' else s
  | [] => []
  end.

(** [str.trim()] *)
Definition trim (s : jsstr) : jsstr := rev (drop_spaces (rev (drop_spaces s))).

(** [toWesternDigits]: two [replace] passes, Arabic-Indic [٠-٩]
    (U+0660..U+0669) then Persian [۰-۹] (U+06F0..U+06F9); each matched
    digit is replaced by [String(d.charCodeAt(0) - start)], a one-unit
    string "0".."9". *)
Definition arabicStart : Z := 1632.   (* '٠' *)
Definition persianStart : Z := 1776.  (* '۰' *)

Definition replace_digit_range (start : Z) (s : jsstr) : jsstr :=
  map (fun d => if (start <=? d) && (d <=? start + 9) then 48 + (d - start) else d) s.

Definition toWesternDigits (str : jsstr) : jsstr :=
  let str := replace_digit_range arabicStart str in
  let str := replace_digit_range persianStart str in
  str.

(** [s.replace(/'/g, "''")] *)
Definition escape_quotes (s : jsstr) : jsstr :=
  flat_map (fun c => if c =? quote_cu then [quote_cu; quote_cu] else [c]) s.

Definition has_quote (s : jsstr) : bool := existsb (fun c => c =? quote_cu) s.

(** Truthiness of a JS string: the empty string is falsy. *)
Definition truthy (s : jsstr) : bool := negb (length s =? 0)%nat.

(* ------------------------------------------------------------------ *)
(** ** Data model *)

(** [TileInfo] *)
Record TileInfo := mkTile {
  h3_tile : jsstr;
  addr_count : Z;
  min_lon : Q; max_lon : Q; min_lat : Q; max_lat : Q;
  file_size_kb : Z;
  t_region_ar : option jsstr;
  t_region_en : option jsstr
}.

(** [PostcodeInfo] (the [tiles] column already converted to an array). *)
Record PostcodeInfo := mkPostcode {
  pc_postcode : jsstr;
  pc_tiles : list jsstr;
  pc_addr_count : Z;
  pc_region_ar : option jsstr;
  pc_region_en : option jsstr
}.

(** A row of an address tile file (parquet); [None] is SQL NULL. *)
Record Row := mkRow {
  r_addr_id : Z;
  r_longitude : Q;
  r_latitude : Q;
  r_number : option jsstr;
  r_street : option jsstr;
  r_postcode : option jsstr;
  r_district_ar : option jsstr;
  r_district_en : option jsstr;
  r_city : option jsstr;
  r_gov_ar : option jsstr;
  r_gov_en : option jsstr;
  r_region_ar : option jsstr;
  r_region_en : option jsstr;
  r_full_address_ar : option jsstr;
  r_full_address_en : option jsstr;
  r_h3_index : option jsstr
}.

(** JavaScript values held by result objects. *)
Inductive JsVal := JUndef | JNull | JStr (s : jsstr) | JNum (q : Q).

(** JavaScript objects (a SQL result row, a [GeocodingResult]) as the list
    of their own properties in insertion order. *)
Definition Obj := list (string * JsVal).

Fixpoint get (o : Obj) (k : string) : JsVal :=
  match o with
  | [] => JUndef
  | (k', v) :: o' => if String.eqb k k' then v else get o' k
  end.

(** [o.k = v]: overwrite an existing property, else append it. *)
Fixpoint set (o : Obj) (k : string) (v : JsVal) : Obj :=
  match o with
  | [] => [(k, v)]
  | (k', v') :: o' => if String.eqb k k' then (k', v) :: o' else (k', v') :: set o' k v
  end.

Definition keys (o : Obj) : list string := map fst o.

Definition jsopt (v : option jsstr) : JsVal :=
  match v with Some s => JStr s | None => JNull end.

(** All columns of an address tile, in file order ([SELECT *]). *)
Definition row_all_columns (r : Row) : Obj :=
  [("addr_id", JNum (inject_Z (r_addr_id r)));
   ("longitude", JNum (r_longitude r));
   ("latitude", JNum (r_latitude r));
   ("number", jsopt (r_number r));
   ("street", jsopt (r_street r));
   ("postcode", jsopt (r_postcode r));
   ("district_ar", jsopt (r_district_ar r));
   ("district_en", jsopt (r_district_en r));
   ("city", jsopt (r_city r));
   ("gov_ar", jsopt (r_gov_ar r));
   ("gov_en", jsopt (r_gov_en r));
   ("region_ar", jsopt (r_region_ar r));
   ("region_en", jsopt (r_region_en r));
   ("full_address_ar", jsopt (r_full_address_ar r));
   ("full_address_en", jsopt (r_full_address_en r));
   ("h3_index", jsopt (r_h3_index r))]%string.

(** [SELECT c1, c2, ...] over one row; ["*"] selects every column. *)
Definition project (cols : list string) (r : Row) : Obj :=
  flat_map (fun c => if String.eqb c "*" then row_all_columns r
                     else [(c, get (row_all_columns r) c)]) cols.

(** The column list of the search queries of [geocode],
    [searchByPostcode] and [searchByNumber]. *)
Definition search_columns : list string :=
  ["addr_id"; "longitude"; "latitude"; "number"; "street"; "postcode";
   "district_ar"; "district_en"; "city"; "gov_ar"; "gov_en";
   "region_ar"; "region_en"; "full_address_ar"; "full_address_en"]%string.

(* ------------------------------------------------------------------ *)
(** ** SQL text helpers *)

(** Reading back the SQL literal ['...'] written around an interpolated
    text: a doubled quote stands for one quote. *)
Fixpoint unescape_quotes (s : jsstr) : jsstr :=
  match s with
  | c :: ((c' :: s'') as s') =>
      if (c =? quote_cu) && (c' =? quote_cu) then quote_cu :: unescape_quotes s''
      else c :: unescape_quotes s'
  | _ => s
  end.

(** SQL [UPPER] on the Latin (ASCII) letters; other code units unchanged. *)
Definition sql_upper (s : jsstr) : jsstr :=
  map (fun c => if (97 <=? c) && (c <=? 122) then c - 32 else c) s.

Definition percent_cu : Z := 37.     (* % *)
Definition underscore_cu : Z := 95.  (* _ *)

(** SQL [s LIKE p] without an ESCAPE clause: [%] matches any sequence,
    [_] any single character, every other character itself. *)
Fixpoint like (s p : jsstr) : bool :=
  match p with
  | [] => match s with [] => true | _ => false end
  | c :: p' =>
      if c =? percent_cu then
        existsb (fun k => like (skipn k s) p') (seq 0 (S (length s)))
      else match s with
           | [] => false
           | x :: s' => ((c =? underscore_cu) || (c =? x)) && like s' p'
           end
  end.

(** [infix] is a contiguous substring of [s]. *)
Definition is_substring (infix s : jsstr) : Prop :=
  exists pre post, s = pre ++ infix ++ post.

(* ------------------------------------------------------------------ *)
(** ** The SDK state and its effects *)

Inductive Res (A : Type) := Ok (a : A) | Err (e : string).
Arguments Ok {A} a.
Arguments Err {A} e.

(** The fields of a [GeoSDKH3] instance read by the operations modelled. *)
Record SdkState := mkSdk {
  initialized : bool;
  ftsAvailable : bool;
  dataUrl : jsstr;                            (* this.config.dataUrl *)
  tileIndex : list TileInfo;
  postcodeIndex : gmap jsstr PostcodeInfo;
  loadedTiles : list jsstr                    (* a Set, insertion order *)
}.

(** The instance together with the trace of remote parquet files the
    engine was asked to read (every [read_parquet] argument, in order). *)
Record World := mkWorld { sdk : SdkState; reads : list jsstr }.

Definition M (A : Type) := World -> Res A * World.

Definition ret {A} (a : A) : M A := fun w => (Ok a, w).
Definition bind {A B} (m : M A) (k : A -> M B) : M B :=
  fun w => match m w with
           | (Ok a, w') => k a w'
           | (Err e, w') => (Err e, w')
           end.
Definition throw {A} (e : string) : M A := fun w => (Err e, w).
(** [try { m } catch { h }] *)
Definition catch {A} (m : M A) (h : M A) : M A :=
  fun w => match m w with
           | (Ok a, w') => (Ok a, w')
           | (Err _, w') => h w'
           end.
Definition gets {A} (f : SdkState -> A) : M A := fun w => (Ok (f (sdk w)), w).
Definition modify (f : SdkState -> SdkState) : M unit :=
  fun w => (Ok tt, mkWorld (f (sdk w)) (reads w)).
Definition log_reads (urls : list jsstr) : M unit :=
  fun w => (Ok tt, mkWorld (sdk w) (reads w ++ urls)).
(** Lift the outcome of an engine call. *)
Definition lift {A} (r : Res A) : M A := fun w => (r, w).

Notation "'let*' x ':=' c 'in' k" := (bind c (fun x => k))
  (at level 200, x name, c at level 100, k at level 200).

Definition set_initialized b s :=
  mkSdk b (ftsAvailable s) (dataUrl s) (tileIndex s) (postcodeIndex s) (loadedTiles s).
Definition set_fts b s :=
  mkSdk (initialized s) b (dataUrl s) (tileIndex s) (postcodeIndex s) (loadedTiles s).
Definition set_dataUrl u s :=
  mkSdk (initialized s) (ftsAvailable s) u (tileIndex s) (postcodeIndex s) (loadedTiles s).
Definition set_tileIndex t s :=
  mkSdk (initialized s) (ftsAvailable s) (dataUrl s) t (postcodeIndex s) (loadedTiles s).
Definition set_postcodeIndex p s :=
  mkSdk (initialized s) (ftsAvailable s) (dataUrl s) (tileIndex s) p (loadedTiles s).
Definition add_loadedTile (t : jsstr) s :=
  mkSdk (initialized s) (ftsAvailable s) (dataUrl s) (tileIndex s) (postcodeIndex s)
    (if existsb (fun u => bool_decide (u = t)) (loadedTiles s) then loadedTiles s
     else loadedTiles s ++ [t]).

Definition jseqb (a b : jsstr) : bool := bool_decide (a = b).

(* ------------------------------------------------------------------ *)
(** ** The engine and the remote store *)

(** What the SDK observes of DuckDB-WASM, of the remote parquet files and
    of the host: each field is one kind of engine call.  [None] or [Err]
    is a call that throws. *)
Record Backend := mkBackend {
  b_instantiate : bool;                  (* worker start, instantiate, connect *)
  b_extension : string -> bool;          (* INSTALL x; LOAD x *)
  b_tile_index : jsstr -> option (list TileInfo);       (* read_parquet(url) *)
  b_postcode_index : jsstr -> option (list PostcodeInfo);
  b_boundary : jsstr -> bool;            (* CREATE VIEW .. AS SELECT * FROM read_parquet(url) *)
  b_tile_rows : jsstr -> option (list Row);             (* one address tile file *)
  b_sa_contains : Q -> Q -> Res bool;    (* iso_a2 = 'SA' AND ST_Contains(geometry, point) *)
  b_h3_cell : Q -> Q -> Res (option jsstr);
  b_grid_disk : jsstr -> Res (list jsstr);
  b_lon_delta : Q -> Q -> Q;             (* radiusKm * (1 / (111.32 * Math.cos(latRad))) *)
  b_haversine : Q -> Q -> Row -> Q;      (* the distance_m expression *)
  b_jaccard : jsstr -> jsstr -> Q;
  b_fts_rank : jsstr -> jsstr -> jsstr -> list Row -> Res (list (Row * Q));
      (* index the address field with a stemmer, then match_bm25 scores *)
  b_order_by : list (string * bool) -> list Obj -> list Obj;
      (* ORDER BY (column, descending) list *)
  b_where_text : jsstr -> option jsstr -> Row -> bool
      (* the WHERE clause of [searchByPostcode] when the interpolated
         postcode closes its string literal early *)
}.

Section Engine.
Variable B : Backend.

(** [read_parquet([u1, u2, ...])]: one engine request over the whole file
    list; it yields the rows of all files, or throws when any file cannot
    be read. *)
Fixpoint fetch_all (urls : list jsstr) : option (list Row) :=
  match urls with
  | [] => Some []
  | u :: us =>
      match b_tile_rows B u, fetch_all us with
      | Some r, Some rs => Some (r ++ rs)
      | _, _ => None
      end
  end.

Definition read_parquet (urls : list jsstr) : M (list Row) :=
  let* _ := log_reads urls in
  match fetch_all urls with
  | Some rows => ret rows
  | None => throw "IO Error: cannot read parquet file"
  end.

End Engine.

(* ------------------------------------------------------------------ *)
(** ** [initialize] *)

Definition DEFAULT_DATA_URL : jsstr :=
  js "https://data.source.coop/tabaqat/geocoding-cng/v0.1.0".

Definition tile_index_url (base : jsstr) := base ++ js "/tile_index.parquet".
Definition postcode_index_url (base : jsstr) := base ++ js "/postcode_index.parquet".
Definition tile_url (base t : jsstr) := base ++ js "/tiles/" ++ t ++ js ".parquet".
Definition world_countries_url (base : jsstr) := base ++ js "/world_countries_simple.parquet".
Definition sa_regions_url (base : jsstr) := base ++ js "/sa_regions_simple.parquet".
Definition sa_districts_url (base : jsstr) := base ++ js "/sa_districts_simple.parquet".

Section Operations.
Variable B : Backend.

Definition read_tile_index (url : jsstr) : M (list TileInfo) :=
  let* _ := log_reads [url] in
  match b_tile_index B url with
  | Some rows => ret rows
  | None => throw "IO Error: cannot read tile index"
  end.

Definition read_postcode_index (url : jsstr) : M (list PostcodeInfo) :=
  let* _ := log_reads [url] in
  match b_postcode_index B url with
  | Some rows => ret rows
  | None => throw "IO Error: cannot read postcode index"
  end.

Definition create_view (url : jsstr) : M unit :=
  let* _ := log_reads [url] in
  if b_boundary B url then ret tt else throw "IO Error: cannot read boundaries".

Definition query_ok (ok : bool) (msg : string) : M unit :=
  if ok then ret tt else throw msg.

(** [this.postcodeIndex.set(row.postcode, ...)] for each row in order. *)
Definition load_postcodes (m : gmap jsstr PostcodeInfo) (rows : list PostcodeInfo)
  : gmap jsstr PostcodeInfo :=
  fold_left (fun m p => <[pc_postcode p := p]> m) rows m.

(** Step 5: the tile index, with the fallback to the default location. *)
Definition load_tile_index (baseUrl : jsstr) : M (list TileInfo * jsstr) :=
  catch
    (let* r := read_tile_index (tile_index_url baseUrl) in ret (r, baseUrl))
    (if negb (jseqb baseUrl DEFAULT_DATA_URL) then
       catch
         (let* r := read_tile_index (tile_index_url DEFAULT_DATA_URL) in
          let* _ := modify (set_dataUrl DEFAULT_DATA_URL) in
          ret (r, DEFAULT_DATA_URL))
         (throw "Failed to load tile index from both custom and default URLs")
     else throw "IO Error: cannot read tile index").

Definition initialize : M unit :=
  let* init := gets initialized in
  if init then ret tt else
  let* _ := query_ok (b_instantiate B) "cannot start DuckDB-WASM" in
  let* _ := query_ok (b_extension B "spatial") "cannot load spatial" in
  let* _ := query_ok (b_extension B "h3") "cannot load h3" in
  let* _ := catch (let* _ := query_ok (b_extension B "fts") "cannot load fts" in
                   modify (set_fts true))
                  (modify (set_fts false)) in
  let* baseUrl := gets dataUrl in
  let* loaded := load_tile_index baseUrl in
  let (indexResult, actualBaseUrl) := loaded in
  let* _ := modify (set_tileIndex indexResult) in
  let* _ := catch (let* rows := read_postcode_index (postcode_index_url actualBaseUrl) in
                   let* m := gets postcodeIndex in
                   modify (set_postcodeIndex (load_postcodes m rows)))
                  (ret tt) in
  let* _ := create_view (world_countries_url actualBaseUrl) in
  let* _ := create_view (sa_regions_url actualBaseUrl) in
  let* _ := create_view (sa_districts_url actualBaseUrl) in
  modify (set_initialized true).

Definition ensureInitialized : M unit :=
  let* i := gets initialized in
  if i then ret tt else throw "GeoSDK not initialized. Call initialize() first.".

End Operations.

(* ------------------------------------------------------------------ *)
(** ** Country gate, column projection and [reverseGeocode] *)

Inductive DetailLevel := Minimal | PostcodeLevel | RegionLevel | Full.

(** [getColumnsForDetailLevel] *)
Definition getColumnsForDetailLevel (level : DetailLevel) : list string :=
  let baseColumns := ["addr_id"; "longitude"; "latitude"]%string in
  match level with
  | Minimal => baseColumns
  | PostcodeLevel => baseColumns ++ ["postcode"; "region_ar"; "region_en"]%string
  | RegionLevel => baseColumns ++ ["postcode"; "district_ar"; "district_en"; "city";
                                  "region_ar"; "region_en"]%string
  | Full => ["*"%string]
  end.

(** [Number(v)] on the integer [addr_id] column. *)
Definition js_Number (v : JsVal) : JsVal :=
  match v with
  | JNum q => JNum q
  | JNull => JNum 0
  | _ => JUndef
  end.

(** One row of [mapResultsToGeocodingResult]. *)
Definition mapResult (detailLevel : DetailLevel) (row : Obj) : Obj :=
  let result := [("addr_id", js_Number (get row "addr_id"));
                 ("longitude", get row "longitude");
                 ("latitude", get row "latitude");
                 ("distance_m", get row "distance_m")]%string in
  match detailLevel with
  | Minimal => result
  | PostcodeLevel =>
      let result := set result "postcode" (get row "postcode") in
      let result := set result "region_ar" (get row "region_ar") in
      set result "region_en" (get row "region_en")
  | RegionLevel =>
      let result := set result "postcode" (get row "postcode") in
      let result := set result "district_ar" (get row "district_ar") in
      let result := set result "district_en" (get row "district_en") in
      let result := set result "city" (get row "city") in
      let result := set result "region_ar" (get row "region_ar") in
      set result "region_en" (get row "region_en")
  | Full =>
      let result := set result "number" (get row "number") in
      let result := set result "street" (get row "street") in
      let result := set result "postcode" (get row "postcode") in
      let result := set result "district_ar" (get row "district_ar") in
      let result := set result "district_en" (get row "district_en") in
      let result := set result "city" (get row "city") in
      let result := set result "gov_ar" (get row "gov_ar") in
      let result := set result "gov_en" (get row "gov_en") in
      let result := set result "region_ar" (get row "region_ar") in
      let result := set result "region_en" (get row "region_en") in
      let result := set result "full_address_ar" (get row "full_address_ar") in
      let result := set result "full_address_en" (get row "full_address_en") in
      set result "h3_index" (get row "h3_index")
  end%string.

Definition mapResultsToGeocodingResult (rows : list Obj) (detailLevel : DetailLevel)
  : list Obj := map (mapResult detailLevel) rows.

Definition qlt (x y : Q) : bool := match Qcompare x y with Lt => true | _ => false end.
Definition qle (x y : Q) : bool := negb (qlt y x).

(** The quick bounding-box test of [isInSaudiArabia]. *)
Definition outside_sa_bbox (lat lon : Q) : bool :=
  qlt lon (345 # 10) || qlt (557 # 10) lon || qlt lat (163 # 10) || qlt (322 # 10) lat.

Record RevOpts := mkRevOpts {
  ro_limit : option nat;
  ro_radiusMeters : option Q;
  ro_detailLevel : option DetailLevel;
  ro_includeNeighbors : option bool
}.

Definition default_of {A} (d : A) (o : option A) : A :=
  match o with Some a => a | None => d end.

Section Queries.
Variable B : Backend.

Definition isInSaudiArabia (lat lon : Q) : M bool :=
  let* _ := ensureInitialized in
  if outside_sa_bbox lat lon then ret false
  else lift (b_sa_contains B lat lon).

Definition tile_known (idx : list TileInfo) (t : jsstr) : bool :=
  existsb (fun ti => jseqb (h3_tile ti) t) idx.

(** [BETWEEN a AND b] *)
Definition between (x a b : Q) : bool := qle a x && qle x b.

(** The reverse query: bounding-box filter, projected columns plus the
    computed [distance_m], [ORDER BY distance_m LIMIT limit]. *)
Definition reverse_query (lat lon lonDelta latDelta : Q) (columns : list string)
    (limit : nat) (rows : list Row) : list Obj :=
  let sel := List.filter (fun r => between (r_longitude r) (lon - lonDelta) (lon + lonDelta)
                              && between (r_latitude r) (lat - latDelta) (lat + latDelta)) rows in
  let objs := map (fun r => project columns r
                            ++ [("distance_m"%string, JNum (b_haversine B lat lon r))]) sel in
  firstn limit (b_order_by B [("distance_m"%string, false)] objs).

Definition reverseGeocode (lat lon : Q) (options : RevOpts) : M (list Obj) :=
  let* _ := ensureInitialized in
  let limit := default_of 10%nat (ro_limit options) in
  let radiusMeters := default_of 1000%Q (ro_radiusMeters options) in
  let detailLevel := default_of Full (ro_detailLevel options) in
  let includeNeighbors := default_of false (ro_includeNeighbors options) in
  let* inSA := isInSaudiArabia lat lon in
  if negb inSA then ret [] else
  let* h3Tile := lift (b_h3_cell B lat lon) in
  match h3Tile with
  | None => ret []
  | Some h3Tile =>
  let* idx := gets tileIndex in
  match find (fun t => jseqb (h3_tile t) h3Tile) idx with
  | None => ret []
  | Some _ =>
  let columns := getColumnsForDetailLevel detailLevel in
  let* baseUrl := gets dataUrl in
  let* tilesToQuery :=
    (if includeNeighbors then
       let* neighbors := lift (b_grid_disk B h3Tile) in
       ret ([h3Tile] ++ List.filter (tile_known idx) neighbors)
     else ret [h3Tile]) in
  let radiusKm := (radiusMeters / 1000)%Q in
  let lonDelta := b_lon_delta B lat radiusKm in
  let latDelta := (radiusKm * (1 / (110574 # 1000)))%Q in
  let* rows := read_parquet B (map (tile_url baseUrl) tilesToQuery) in
  let result := reverse_query lat lon lonDelta latDelta columns limit rows in
  let* _ := modify (add_loadedTile h3Tile) in
  ret (mapResultsToGeocodingResult result detailLevel)
  end
  end.

End Queries.

(* ------------------------------------------------------------------ *)
(** ** [geocode] *)

Record GeoOpts := mkGeoOpts {
  go_limit : option nat;
  go_bbox : option (Q * Q * Q * Q);   (* [minLat, minLon, maxLat, maxLon] *)
  go_region : option jsstr
}.

(** The bounding-box intersection test of [getTilesForBbox] and [geocode]. *)
Definition tile_overlaps (minLat minLon maxLat maxLon : Q) (t : TileInfo) : bool :=
  qle (min_lon t) maxLon && qle minLon (max_lon t)
  && qle (min_lat t) maxLat && qle minLat (max_lat t).

(** [t.region_ar === region || t.region_en === region] *)
Definition region_matches (region : jsstr) (t : TileInfo) : bool :=
  match t_region_ar t with Some s => jseqb s region | None => false end
  || match t_region_en t with Some s => jseqb s region | None => false end.

(** [options.bbox] is an array (truthy when given); [options.region] is a
    string (truthy when non-empty). *)
Definition bbox_given (o : GeoOpts) : bool :=
  match go_bbox o with Some _ => true | None => false end.
Definition region_given (o : GeoOpts) : bool :=
  match go_region o with Some r => truthy r | None => false end.

(** [tilesToQuery] before capping. *)
Definition geocode_candidates (idx : list TileInfo) (o : GeoOpts) : list TileInfo :=
  match go_bbox o with
  | Some (minLat, minLon, maxLat, maxLon) => List.filter (tile_overlaps minLat minLon maxLat maxLon) idx
  | None =>
      match go_region o with
      | Some r => if truthy r then List.filter (region_matches r) idx else idx
      | None => idx
      end
  end.

Definition MAX_TILES : nat := 50.

(** [Array.prototype.sort] with comparator [a.file_size_kb - b.file_size_kb]:
    a stable sort by ascending file size. *)
Fixpoint insert_by_size (x : TileInfo) (l : list TileInfo) : list TileInfo :=
  match l with
  | [] => [x]
  | y :: l' => if file_size_kb x <=? file_size_kb y then x :: y :: l'
               else y :: insert_by_size x l'
  end.

Fixpoint sort_by_size (l : list TileInfo) : list TileInfo :=
  match l with
  | [] => []
  | x :: l' => insert_by_size x (sort_by_size l')
  end.

(** [l.filter((_, i) => p(i))], indices counted from [i]. *)
Fixpoint filteri_from {A} (i : nat) (p : nat -> bool) (l : list A) : list A :=
  match l with
  | [] => []
  | x :: l' => if p i then x :: filteri_from (S i) p l' else filteri_from (S i) p l'
  end.

(** [Math.ceil(n / m)] on naturals, [m > 0]. *)
Definition ceil_div (n m : nat) : nat := ((n + m - 1) / m)%nat.

(** The capping step of [geocode]. *)
Definition cap_tiles (filtered : bool) (tilesToQuery : list TileInfo) : list TileInfo :=
  if (MAX_TILES <? length tilesToQuery)%nat then
    if filtered then firstn MAX_TILES (sort_by_size tilesToQuery)
    else
      let step := ceil_div (length tilesToQuery) MAX_TILES in
      firstn MAX_TILES (filteri_from 0 (fun i => Nat.eqb (i mod step) 0) tilesToQuery)
  else tilesToQuery.

(** [/[؀-ۿ]/.test(s)] *)
Definition isArabicText (s : jsstr) : bool :=
  existsb (fun c => (1536 <=? c) && (c <=? 1791)) s.

Definition is_delim (c : Z) : bool :=
  is_js_space c || (c =? comma_cu) || (c =? arabic_comma_cu).

(** [s.split(/[\s,،]+/)] *)
Fixpoint split_runs (s : jsstr) (cur : jsstr) (prev_delim : bool) : list jsstr :=
  match s with
  | [] => [rev cur]
  | c :: s' =>
      if is_delim c then
        if prev_delim then split_runs s' [] true else rev cur :: split_runs s' [] true
      else split_runs s' (c :: cur) false
  end.

Definition split_delims (s : jsstr) : list jsstr := split_runs s [] false.

(** [searchTerms]: split, keep terms of length >= 2, at most 5. *)
Definition searchTerms (cleanAddress : jsstr) : list jsstr :=
  firstn 5 (List.filter (fun term => (2 <=? length term)%nat) (split_delims cleanAddress)).

(** One condition of [containsConditions], as the engine evaluates it on a
    non-NULL address: [field LIKE '%term%'] or
    [UPPER(field) LIKE UPPER('%term%')]. *)
Definition term_condition (isArabic : bool) (addr term : jsstr) : bool :=
  let pattern := [percent_cu] ++ unescape_quotes term ++ [percent_cu] in
  if isArabic then like addr pattern else like (sql_upper addr) (sql_upper pattern).

(** [containsConditions]: the disjunction of the terms, or [TRUE]. *)
Definition contains_conditions (isArabic : bool) (terms : list jsstr) (addr : jsstr) : bool :=
  match terms with
  | [] => true
  | _ => existsb (term_condition isArabic addr) terms
  end.

Definition address_of (isArabic : bool) (r : Row) : option jsstr :=
  if isArabic then r_full_address_ar r else r_full_address_en r.

Definition addressFieldName (isArabic : bool) : string :=
  if isArabic then "full_address_ar" else "full_address_en".

Definition with_similarity (r : Row) (q : Q) : Obj :=
  project search_columns r ++ [("similarity"%string, JNum q)].

(** The object built for each row by [geocode]. *)
Definition mapGeocodeRow (row : Obj) : Obj :=
  ("addr_id"%string, js_Number (get row "addr_id"))
  :: map (fun k => (k, get row k)) (tl search_columns ++ ["similarity"%string]).

Section Geocode.
Variable B : Backend.

(** The fallback query (JACCARD ranking behind the LIKE gate). *)
Definition fallback_query (isArabic : bool) (cleanAddress : jsstr) (limit : nat)
    (rows : list Row) : list Obj :=
  let terms := searchTerms cleanAddress in
  let query := unescape_quotes cleanAddress in
  let sel := List.filter (fun r => match address_of isArabic r with
                              | Some a => contains_conditions isArabic terms a
                              | None => false
                              end) rows in
  let objs := map (fun r =>
      let a := default_of [] (address_of isArabic r) in
      with_similarity r (if isArabic then b_jaccard B query a
                         else b_jaccard B (sql_upper query) (sql_upper a))) sel in
  firstn limit (b_order_by B [("similarity"%string, true)] objs).

(** The BM25 path: temporary table, FTS index, [match_bm25]. *)
Definition fts_query (isArabic : bool) (cleanAddress : jsstr) (limit : nat)
    (urls : list jsstr) : M (list Obj) :=
  let* rows := read_parquet B urls in
  let rows := List.filter (fun r => match address_of isArabic r with Some _ => true | None => false end) rows in
  let stemmer := if isArabic then js "arabic" else js "porter" in
  let* scored := lift (b_fts_rank B (js (addressFieldName isArabic)) stemmer
                                    (unescape_quotes cleanAddress) rows) in
  ret (firstn limit (b_order_by B [("similarity"%string, true)]
                       (map (fun '(r, q) => with_similarity r q) scored))).

Definition geocode (address : jsstr) (options : GeoOpts) : M (list Obj) :=
  let* _ := ensureInitialized in
  let limit := default_of 10%nat (go_limit options) in
  let* baseUrl := gets dataUrl in
  let normalizedAddress := toWesternDigits (trim address) in
  let cleanAddress := escape_quotes normalizedAddress in
  let* idx := gets tileIndex in
  let tilesToQuery := geocode_candidates idx options in
  if (length tilesToQuery =? 0)%nat then ret [] else
  let tilesToQuery := cap_tiles (bbox_given options || region_given options) tilesToQuery in
  let urls := map (fun t => tile_url baseUrl (h3_tile t)) tilesToQuery in
  let isArabic := isArabicText cleanAddress in
  let* fts := gets ftsAvailable in
  let* result :=
    (if fts then catch (let* r := fts_query isArabic cleanAddress limit urls in ret (Some r))
                       (ret None)
     else ret None) in
  let* result :=
    match result with
    | Some r => ret r
    | None =>
        let* rows := read_parquet B urls in
        ret (fallback_query isArabic cleanAddress limit rows)
    end in
  ret (map mapGeocodeRow result).

End Geocode.

(* ------------------------------------------------------------------ *)
(** ** [searchByPostcode] *)

Record PcOpts := mkPcOpts {
  po_limit : option nat;
  po_number : option jsstr
}.

(** The object built for each row by [searchByPostcode]. *)
Definition mapSearchRow (row : Obj) : Obj :=
  ("addr_id"%string, js_Number (get row "addr_id"))
  :: map (fun k => (k, get row k)) (tl search_columns).

Definition opt_eqb (v : option jsstr) (s : jsstr) : bool :=
  match v with Some x => jseqb x s | None => false end.

Section Postcode.
Variable B : Backend.

(** [WHERE postcode = '${postcode}' ${numberFilter}]: the postcode is
    interpolated as given (no escaping), the number after
    [replace(/'/g, "''")]. *)
Definition postcode_where (postcode : jsstr) (normalizedNumber : option jsstr) (r : Row) : bool :=
  if has_quote postcode then b_where_text B postcode normalizedNumber r
  else opt_eqb (r_postcode r) postcode
       && match normalizedNumber with
          | Some n => if truthy n then opt_eqb (r_number r) n else true
          | None => true
          end.

Definition postcode_query (postcode : jsstr) (normalizedNumber : option jsstr)
    (limit : nat) (rows : list Row) : list Obj :=
  let sel := List.filter (postcode_where postcode normalizedNumber) rows in
  firstn limit (b_order_by B [("number"%string, false)] (map (project search_columns) sel)).

Definition searchByPostcode (postcode : jsstr) (options : PcOpts) : M (list Obj) :=
  let* _ := ensureInitialized in
  let limit := default_of 50%nat (po_limit options) in
  let* baseUrl := gets dataUrl in
  let normalizedPostcode := toWesternDigits (trim postcode) in
  let normalizedNumber :=
    match po_number options with
    | Some n => if truthy n then Some (toWesternDigits (trim n)) else None
    | None => None
    end in
  let* pidx := gets postcodeIndex in
  match pidx !! normalizedPostcode with
  | None => ret []
  | Some postcodeInfo =>
      let urls := map (tile_url baseUrl) (pc_tiles postcodeInfo) in
      let* rows := read_parquet B urls in
      ret (map mapSearchRow (postcode_query postcode normalizedNumber limit rows))
  end.

End Postcode.

(* ------------------------------------------------------------------ *)
(** ** The other methods of [GeoSDKH3] *)

(** [new GeoSDKH3(config)]: [dataUrl: config.dataUrl ?? DEFAULT_DATA_URL];
    the instance starts uninitialized, with empty indexes. *)
Definition GeoSDKH3_new (config_dataUrl : option jsstr) : SdkState :=
  mkSdk false false (default_of DEFAULT_DATA_URL config_dataUrl) [] ∅ [].

(** [getLoadedTiles()]: [[...this.loadedTiles]], in insertion order. *)
Definition getLoadedTiles (s : SdkState) : list jsstr := loadedTiles s.

(** [getTilesForBbox(minLat, minLon, maxLat, maxLon)] (no initialization
    check). *)
Definition getTilesForBbox (idx : list TileInfo) (minLat minLon maxLat maxLon : Q)
  : list jsstr :=
  map h3_tile (List.filter (tile_overlaps minLat minLon maxLat maxLon) idx).

(** [getTilesByRegion(region)] *)
Definition getTilesByRegion (idx : list TileInfo) (region : jsstr) : list TileInfo :=
  List.filter (region_matches region) idx.

(** [s.startsWith(prefix)] *)
Fixpoint startsWith (s prefix : jsstr) : bool :=
  match prefix, s with
  | [], _ => true
  | c :: p', x :: s' => (c =? x) && startsWith s' p'
  | _ :: _, [] => false
  end.

(** [getPostcodes(prefix)]. [Array.from(this.postcodeIndex.values())] lists
    the entries in the Map's insertion order; the [gmap] lists them in an
    order of its own, so only membership in this list is meaningful. *)
Definition getPostcodes (pidx : gmap jsstr PostcodeInfo) (prefix : option jsstr)
  : list PostcodeInfo :=
  let postcodes := map snd (map_to_list pidx) in
  match prefix with
  | Some p => if truthy p then List.filter (fun q => startsWith (pc_postcode q) p) postcodes
              else postcodes
  | None => postcodes
  end.

Record Stats := mkStats {
  tilesLoaded : nat;
  totalTiles : nat;
  totalAddresses : Z;
  totalSizeKb : Z
}.

(** [getStats()] *)
Definition getStats : M Stats :=
  let* _ := ensureInitialized in
  let* s := gets (fun s => s) in
  ret (mkStats (length (loadedTiles s)) (length (tileIndex s))
         (fold_left (fun sum t => sum + addr_count t) (tileIndex s) 0)
         (fold_left (fun sum t => sum + file_size_kb t) (tileIndex s) 0)).

(** [close()]: the connection and the database are shut down (assumed to
    succeed), [initialized] is reset and [loadedTiles] cleared; the indexes
    and the base location are kept. *)
Definition close : M unit :=
  modify (fun s => mkSdk false (ftsAvailable s) (dataUrl s) (tileIndex s)
                         (postcodeIndex s) []).

Section MoreQueries.
Variable B : Backend.

(** [geocodeFTS(query, options)]: [LOAD fts] inside a try; both the
    [catch] branch and the code after it return [this.geocode(query,
    options)]. *)
Definition geocodeFTS (query : jsstr) (options : GeoOpts) : M (list Obj) :=
  let* _ := ensureInitialized in
  let* _ := catch (let* _ := query_ok (b_extension B "fts") "cannot load fts" in ret true)
                  (ret false) in
  geocode B query options.

Record NumOpts := mkNumOpts {
  no_region : option jsstr;
  no_bbox : option (Q * Q * Q * Q);   (* [minLat, minLon, maxLat, maxLon] *)
  no_limit : option nat
}.

(** [tilesToQuery] of [searchByNumber]: the region filter first, then the
    bbox filter, else the first 20 tiles of the index. *)
Definition number_tiles (idx : list TileInfo) (o : NumOpts) : list TileInfo :=
  let byBbox :=
    match no_bbox o with
    | Some (minLat, minLon, maxLat, maxLon) =>
        List.filter (tile_overlaps minLat minLon maxLat maxLon) idx
    | None => firstn 20 idx
    end in
  match no_region o with
  | Some r => if truthy r then List.filter (region_matches r) idx else byBbox
  | None => byBbox
  end.

(** [searchByNumber(number, options)]: [WHERE number = '${cleanNumber}'],
    [ORDER BY postcode, street LIMIT limit]. *)
Definition searchByNumber (number : jsstr) (options : NumOpts) : M (list Obj) :=
  let* _ := ensureInitialized in
  let limit := default_of 20%nat (no_limit options) in
  let* baseUrl := gets dataUrl in
  let cleanNumber := escape_quotes (toWesternDigits (trim number)) in
  let* idx := gets tileIndex in
  let tilesToQuery := number_tiles idx options in
  if (length tilesToQuery =? 0)%nat then ret [] else
  let urls := map (fun t => tile_url baseUrl (h3_tile t)) tilesToQuery in
  let* rows := read_parquet B urls in
  let sel := List.filter (fun r => opt_eqb (r_number r) (unescape_quotes cleanNumber)) rows in
  ret (map mapSearchRow
         (firstn limit (b_order_by B [("postcode"%string, false); ("street"%string, false)]
                          (map (project search_columns) sel)))).

End MoreQueries.

(* ------------------------------------------------------------------ *)
(** ** A concrete engine, used to run the model on small inputs *)

(** The numeric value of column [k] of a result row. *)
Definition sort_key (k : string) (o : Obj) : Q :=
  match get o k with JNum q => q | _ => 0%Q end.

Fixpoint ins_obj (le : Obj -> Obj -> bool) (x : Obj) (l : list Obj) : list Obj :=
  match l with
  | [] => [x]
  | y :: l' => if le x y then x :: y :: l' else y :: ins_obj le x l'
  end.

Fixpoint isort_obj (le : Obj -> Obj -> bool) (l : list Obj) : list Obj :=
  match l with
  | [] => []
  | x :: l' => ins_obj le x (isort_obj le l')
  end.

(** A stable [ORDER BY] on the numeric value of the first sort column. *)
Definition example_order_by (spec : list (string * bool)) (objs : list Obj) : list Obj :=
  match spec with
  | (k, false) :: _ => isort_obj (fun a b => Qle_bool (sort_key k a) (sort_key k b)) objs
  | (k, true) :: _ => isort_obj (fun a b => Qle_bool (sort_key k b) (sort_key k a)) objs
  | [] => objs
  end.

Definition example_backend (tidx : jsstr -> option (list TileInfo))
    (pcs : jsstr -> option (list PostcodeInfo))
    (tiles : jsstr -> option (list Row)) (cell : option jsstr) (disk : list jsstr)
    : Backend :=
  {| b_instantiate := true;
     b_extension := fun e => negb (String.eqb e "fts");
     b_tile_index := tidx;
     b_postcode_index := pcs;
     b_boundary := fun _ => true;
     b_tile_rows := tiles;
     b_sa_contains := fun _ _ => Ok true;
     b_h3_cell := fun _ _ => Ok cell;
     b_grid_disk := fun _ => Ok disk;
     b_lon_delta := fun _ radiusKm => (radiusKm / 100)%Q;
     b_haversine := fun lat lon r =>
       (Qabs (r_latitude r - lat) + Qabs (r_longitude r - lon))%Q;
     b_jaccard := fun _ _ => 0%Q;
     b_fts_rank := fun _ _ _ _ => Err "fts unavailable";
     b_order_by := example_order_by;
     b_where_text := fun _ _ _ => false |}.

Definition example_tile (h : jsstr) (size : Z) : TileInfo :=
  mkTile h 1 (46 # 1) (47 # 1) (24 # 1) (25 # 1) size None (Some (js "Riyadh")).

Definition example_row (id : Z) (lat lon : Q) (number postcode addr_en : jsstr) : Row :=
  mkRow id lon lat (Some number) None (Some postcode) None None None None None
    None None None (Some addr_en) None.

Definition example_state (idx : list TileInfo) (pidx : gmap jsstr PostcodeInfo) : SdkState :=
  mkSdk true false DEFAULT_DATA_URL idx pidx [].

Definition example_world (idx : list TileInfo) (pidx : gmap jsstr PostcodeInfo) : World :=
  mkWorld (example_state idx pidx) [].

Definition no_files {A} (_ : jsstr) : option A := None.

(* ------------------------------------------------------------------ *)
(** ** Fixtures and auxiliary predicates *)

Definition inclb (a b : list string) : bool :=
  forallb (fun x => existsb (String.eqb x) b) a.

Definition strict_subset (a b : list string) : Prop := incl a b /\ ~ incl b a.

Definition minimal_fields : list string :=
  ["addr_id"; "longitude"; "latitude"; "distance_m"]%string.

Definition tile1 : jsstr := js "8a1f".

Definition tile2 : jsstr := js "8a2e".

(** Two tiles near Riyadh; the rows of [tile1] are given, [tile2] holds
    one row or, with [fail2], cannot be read. *)
Definition riyadh_files (rows1 : list Row) (fail2 : bool) (u : jsstr) : option (list Row) :=
  if bool_decide (u = tile_url DEFAULT_DATA_URL tile1) then Some rows1
  else if bool_decide (u = tile_url DEFAULT_DATA_URL tile2) then
    (if fail2 then None
     else Some [example_row 3 (2471 # 100) (4661 # 100) (js "7") (js "13848") (js "c")])
  else None.

Definition riyadh_backend (rows1 : list Row) (fail2 : bool) : Backend :=
  example_backend no_files no_files (riyadh_files rows1 fail2) (Some tile1) [tile1; tile2].

Definition riyadh_world : World :=
  example_world [example_tile tile1 100; example_tile tile2 120] ∅.

Definition riyadh_rows : list Row :=
  [example_row 2 (247 # 10) (466 # 10) (js "12") (js "13847") (js "b");
   example_row 1 (247 # 10) (466 # 10) (js "10") (js "13847") (js "a")].

Definition dist_le (a b : Obj) : Prop :=
  Qle (sort_key "distance_m" a) (sort_key "distance_m" b).

(** The engine's [ORDER BY distance_m] returns its rows by non-decreasing
    distance. *)
Definition orders_by_distance (B : Backend) : Prop :=
  forall objs, Sorted dist_le (b_order_by B [("distance_m"%string, false)] objs).

Definition arabic_13847 : jsstr := [1633; 1635; 1640; 1636; 1639].   (* ١٣٨٤٧ *)

Definition persian_13847 : jsstr := [1777; 1779; 1784; 1780; 1783].  (* ۱۳۸۴۷ *)

Definition arabic_12 : jsstr := [1633; 1634].                        (* ١٢ *)

Definition postcode_world : World :=
  example_world [example_tile tile1 100]
    (<[js "13847" := mkPostcode (js "13847") [tile1] 2 None None]> ∅).

(** The engine's [ORDER BY] returns a permutation of its input. *)
Definition order_by_permutes (B : Backend) : Prop :=
  forall spec objs, Permutation (b_order_by B spec objs) objs.

Definition all_readable (B : Backend) (urls : list jsstr) : Prop :=
  forall u, In u urls -> b_tile_rows B u <> None.

(** The tile files [geocode] may read: those of the capped candidates. *)
Definition geocode_urls (st : SdkState) (o : GeoOpts) : list jsstr :=
  map (fun t => tile_url (dataUrl st) (h3_tile t))
    (cap_tiles (bbox_given o || region_given o) (geocode_candidates (tileIndex st) o)).

(** Partition files under base location [base]. *)
Definition reads_from (base : jsstr) (urls : list jsstr) : Prop :=
  Forall (fun u => exists t, u = tile_url base t) urls.

(** Every later operation on instance [w] reads its partitions under
    [base] and leaves the base location at [base]. *)
Definition later_reads_from (B : Backend) (base : jsstr) (w : World) : Prop :=
  (forall lat lon o r w2, reverseGeocode B lat lon o w = (r, w2) ->
     dataUrl (sdk w2) = base /\
     exists urls, reads w2 = reads w ++ urls /\ reads_from base urls) /\
  (forall address o r w2, geocode B address o w = (r, w2) ->
     dataUrl (sdk w2) = base /\
     exists urls, reads w2 = reads w ++ urls /\ reads_from base urls) /\
  (forall code o r w2, searchByPostcode B code o w = (r, w2) ->
     dataUrl (sdk w2) = base /\
     exists urls, reads w2 = reads w ++ urls /\ reads_from base urls).

(** A custom base location that does not serve the index. *)
Definition custom_url : jsstr := js "file:///srv/geocoding".

Definition fallback_backend : Backend :=
  example_backend
    (fun u => if jseqb u (tile_index_url DEFAULT_DATA_URL)
              then Some [example_tile tile1 100] else None)
    no_files no_files None [].

Definition fallback_world : World :=
  mkWorld (mkSdk false false custom_url [] ∅ []) [].

Definition size_le (a b : TileInfo) : Prop := file_size_kb a <= file_size_kb b.

(** A partition index of 51 tiles. *)
Definition big_index : list TileInfo :=
  map (fun k => example_tile tile1 (Z.of_nat k)) (seq 0 51).

Definition wildcard_backend : Backend :=
  riyadh_backend [example_row 1 (247 # 10) (466 # 10) (js "12") (js "13847") (js "ab")] false.

Definition wildcard_world : World := example_world [example_tile tile1 100] ∅.


(** What an instance keeps of its loaded tiles: none before it is
    initialized, each at most once, and each the tile of an entry of the
    partition index. *)
Definition tiles_inv (st : SdkState) : Prop :=
  (initialized st = false -> loadedTiles st = []) /\
  NoDup (loadedTiles st) /\
  incl (loadedTiles st) (map h3_tile (tileIndex st)).

(* ================================================================== *)
(** * Properties *)

Ltac unfold_monad :=
  unfold bind, ret, throw, catch, gets, modify, log_reads, lift in *.

(** Split every [match] of hypothesis [H] and close the impossible cases. *)
Ltac split_matches H :=
  repeat (cbn beta iota zeta in H;
          match type of H with
          | context [match ?x with _ => _ end] =>
              lazymatch type of x with
              | prod _ _ => fail
              | _ => let E := fresh "E" in destruct x eqn:E
              end
          end);
  try discriminate H.

(** The result of [reverseGeocode]: empty, or the mapped prefix of the
    engine's [ORDER BY distance_m] output. *)
Lemma reverseGeocode_shape (B : Backend) lat lon (o : RevOpts) w res w' :
  reverseGeocode B lat lon o w = (Ok res, w') ->
  res = [] \/
  exists objs, res = mapResultsToGeocodingResult
                       (firstn (default_of 10%nat (ro_limit o))
                          (b_order_by B [("distance_m"%string, false)] objs))
                       (default_of Full (ro_detailLevel o)).
Proof.
  unfold reverseGeocode, isInSaudiArabia, ensureInitialized, read_parquet,
    reverse_query; unfold_monad.
  intros H. split_matches H.
  all: try (injection H as <- <-; left; reflexivity).
  all: injection H as <- <-; right; eexists; reflexivity.
Qed.

Lemma mapResult_keys (row : Obj) :
  keys (mapResult Minimal row) = ["addr_id"; "longitude"; "latitude"; "distance_m"]%string /\
  keys (mapResult PostcodeLevel row) =
    ["addr_id"; "longitude"; "latitude"; "distance_m"; "postcode"; "region_ar";
     "region_en"]%string /\
  keys (mapResult RegionLevel row) =
    ["addr_id"; "longitude"; "latitude"; "distance_m"; "postcode"; "district_ar";
     "district_en"; "city"; "region_ar"; "region_en"]%string /\
  keys (mapResult Full row) =
    ["addr_id"; "longitude"; "latitude"; "distance_m"; "number"; "street"; "postcode";
     "district_ar"; "district_en"; "city"; "gov_ar"; "gov_en"; "region_ar"; "region_en";
     "full_address_ar"; "full_address_en"; "h3_index"]%string.
Proof. repeat split; reflexivity. Qed.

Lemma inclb_true (a b : list string) : inclb a b = true -> incl a b.
Proof.
  unfold inclb. rewrite forallb_forall. intros H x Hx.
  specialize (H x Hx). apply existsb_exists in H as [y [Hy Hxy]].
  apply String.eqb_eq in Hxy. subst. exact Hy.
Qed.

Lemma inclb_false (a b : list string) : inclb a b = false -> ~ incl a b.
Proof.
  unfold inclb. intros H Hi.
  assert (forallb (fun x => existsb (String.eqb x) b) a = true) as Ht.
  { apply forallb_forall. intros x Hx. apply existsb_exists.
    exists x. split; [exact (Hi x Hx) | apply String.eqb_refl]. }
  congruence.
Qed.

Lemma strict_subset_of (a b : list string) :
  inclb a b = true -> inclb b a = false -> strict_subset a b.
Proof. intros H1 H2. split; [apply inclb_true | apply inclb_false]; assumption. Qed.

(** ** C10 *)

(** C10: on an instance that is already initialized, [initialize] returns
    at once: the state (tile index, postcode index, the flag of ranked
    search, the base URL) and the trace of reads are unchanged. *)
Theorem initialize_idempotent (B : Backend) (w : World) :
  initialized (sdk w) = true ->
  initialize B w = (Ok tt, w).
Proof.
  intros H. unfold initialize. unfold_monad. rewrite H. reflexivity.
Qed.

Lemma initialize_idempotent_witness :
  initialized (sdk (example_world [] ∅)) = true /\
  initialize (example_backend no_files no_files no_files None [])
    (example_world [] ∅) = (Ok tt, example_world [] ∅).
Proof.
  split; [reflexivity|].
  apply initialize_idempotent. reflexivity.
Defined.

(** ** C5 *)

(** C5: on an initialized instance, a point that the country gate reports
    outside the country (it fails the quick bounding-box test, or the
    polygon query answers false) gives [reverseGeocode] = [[]], no error,
    and the state and the trace of reads are unchanged: no partition is
    read. *)
Theorem reverseGeocode_outside_country (B : Backend) (lat lon : Q) (o : RevOpts) (w : World) :
  initialized (sdk w) = true ->
  (outside_sa_bbox lat lon = true \/ b_sa_contains B lat lon = Ok false) ->
  reverseGeocode B lat lon o w = (Ok [], w).
Proof.
  intros Hi Hout. unfold reverseGeocode, isInSaudiArabia, ensureInitialized.
  unfold_monad. rewrite Hi. cbn. rewrite Hi. cbn.
  destruct (outside_sa_bbox lat lon) eqn:E; [reflexivity|].
  destruct Hout as [Hout | Hout]; [discriminate | rewrite Hout; reflexivity].
Qed.

Lemma reverseGeocode_outside_country_witness :
  outside_sa_bbox 0 0 = true /\
  reverseGeocode (example_backend no_files no_files no_files None []) 0 0
    (mkRevOpts None None None None) (example_world [] ∅) = (Ok [], example_world [] ∅).
Proof.
  split; [reflexivity|].
  apply reverseGeocode_outside_country; [reflexivity | left; reflexivity].
Defined.

(** ** C8 *)

(** C8: with [detailLevel = minimal] every record returned by
    [reverseGeocode] has exactly the properties addr_id, longitude,
    latitude, distance_m; and the property sets of the levels strictly
    grow: minimal, postcode, region, full. *)
Theorem reverseGeocode_detail_fields (B : Backend) (lat lon : Q) (o : RevOpts) (w : World)
    (res : list Obj) (w' : World) (row : Obj) :
  ro_detailLevel o = Some Minimal ->
  reverseGeocode B lat lon o w = (Ok res, w') ->
  (forall r, In r res -> keys r = minimal_fields) /\
  strict_subset (keys (mapResult Minimal row)) (keys (mapResult PostcodeLevel row)) /\
  strict_subset (keys (mapResult PostcodeLevel row)) (keys (mapResult RegionLevel row)) /\
  strict_subset (keys (mapResult RegionLevel row)) (keys (mapResult Full row)).
Proof.
  intros Hd Hr.
  destruct (mapResult_keys row) as (K1 & K2 & K3 & K4).
  rewrite K1, K2, K3, K4.
  split; [| repeat split; apply strict_subset_of; reflexivity].
  apply reverseGeocode_shape in Hr. rewrite Hd in Hr. cbn [default_of] in Hr.
  intros r Hin. destruct Hr as [-> | [objs ->]]; [destruct Hin|].
  unfold mapResultsToGeocodingResult in Hin. apply in_map_iff in Hin as [x [<- _]].
  apply mapResult_keys.
Qed.

Lemma reverseGeocode_detail_fields_witness :
  exists res w',
    reverseGeocode (riyadh_backend riyadh_rows false) (247 # 10) (466 # 10)
      (mkRevOpts None None (Some Minimal) None) riyadh_world = (Ok res, w') /\
    res <> [] /\
    (forall r, In r res -> keys r = minimal_fields) /\
    strict_subset (keys (mapResult Minimal [])) (keys (mapResult PostcodeLevel [])) /\
    strict_subset (keys (mapResult PostcodeLevel [])) (keys (mapResult RegionLevel [])) /\
    strict_subset (keys (mapResult RegionLevel [])) (keys (mapResult Full [])).
Proof.
  destruct (reverseGeocode (riyadh_backend riyadh_rows false) (247 # 10) (466 # 10)
              (mkRevOpts None None (Some Minimal) None) riyadh_world)
    as [[res | e] w'] eqn:E; [| vm_compute in E; discriminate E].
  exists res, w'. split; [reflexivity|]. split.
  - vm_compute in E. injection E as <- _. discriminate.
  - exact (reverseGeocode_detail_fields _ _ _ (mkRevOpts None None (Some Minimal) None)
             _ _ _ [] eq_refl E).
Defined.

(** ** C3 *)

Lemma mapResult_distance (d : DetailLevel) (row : Obj) :
  get (mapResult d row) "distance_m" = get row "distance_m".
Proof. destruct d; reflexivity. Qed.

Lemma Sorted_firstn {A} (R : A -> A -> Prop) (n : nat) (l : list A) :
  Sorted R l -> Sorted R (firstn n l).
Proof.
  revert l. induction n as [|n IH]; intros l Hs; [constructor|].
  destruct l as [|x l]; [constructor|]. cbn.
  apply Sorted_inv in Hs as [Hs Hh]. constructor; [now apply IH|].
  destruct n, l; cbn; try constructor. now inversion Hh.
Qed.

Lemma Sorted_map {A B} (R : A -> A -> Prop) (R' : B -> B -> Prop) (f : A -> B) (l : list A) :
  (forall a b, R a b -> R' (f a) (f b)) -> Sorted R l -> Sorted R' (map f l).
Proof.
  intros Hf. induction 1 as [|x l Hs IH Hh]; cbn; constructor; [assumption|].
  destruct Hh; cbn; constructor. now apply Hf.
Qed.

Lemma ins_obj_sorted (k : string) (x : Obj) (l : list Obj) :
  let R := fun a b => Qle (sort_key k a) (sort_key k b) in
  Sorted R l -> Sorted R (ins_obj (fun a b => Qle_bool (sort_key k a) (sort_key k b)) x l).
Proof.
  intros R. induction 1 as [|y l Hs IH Hh]; cbn.
  - repeat constructor.
  - destruct (Qle_bool (sort_key k x) (sort_key k y)) eqn:E.
    + constructor; [now constructor|]. constructor. now apply Qle_bool_iff.
    + assert (Hyx : Qle (sort_key k y) (sort_key k x)).
      { apply Qlt_le_weak, Qnot_le_lt. intros C. apply Qle_bool_iff in C. congruence. }
      constructor; [exact IH|].
      destruct Hh as [|z l' Hz]; cbn.
      * now constructor.
      * destruct (Qle_bool (sort_key k x) (sort_key k z)); now constructor.
Qed.

Lemma example_order_by_sorted : orders_by_distance (riyadh_backend riyadh_rows false).
Proof.
  intros objs. cbn [b_order_by riyadh_backend example_backend example_order_by].
  induction objs as [|x l IH]; cbn; [constructor|].
  now apply (ins_obj_sorted "distance_m").
Qed.

(** C3 (as stated, refuted): two records at the same place, hence at the
    same distance, come out as read from the tile (addr_id 2 before 1):
    no tie-break by record id is applied. *)
Lemma reverseGeocode_tie_order_counterexample :
  exists res w',
    reverseGeocode (riyadh_backend riyadh_rows false) (247 # 10) (466 # 10)
      (mkRevOpts None None (Some Minimal) None) riyadh_world = (Ok res, w') /\
    map (sort_key "addr_id") res = [2 # 1; 1 # 1]%Q /\
    Forall (fun r => sort_key "distance_m" r == 0)%Q res.
Proof.
  eexists _, _. split; [vm_compute; reflexivity|]. vm_compute.
  split; [reflexivity|]. repeat constructor.
Qed.

(** C3 (amended): when the engine's [ORDER BY distance_m] sorts by
    distance, the list returned by [reverseGeocode] has at most [limit]
    records and is non-decreasing in distance_m; records of equal
    distance keep the engine's order. *)
Theorem reverseGeocode_sorted_capped (B : Backend) (lat lon : Q) (o : RevOpts) (w : World)
    (res : list Obj) (w' : World) :
  orders_by_distance B ->
  reverseGeocode B lat lon o w = (Ok res, w') ->
  (length res <= default_of 10%nat (ro_limit o))%nat /\ Sorted dist_le res.
Proof.
  intros Hord Hr. apply reverseGeocode_shape in Hr as [-> | [objs ->]].
  - split; [cbn; lia | constructor].
  - unfold mapResultsToGeocodingResult. split.
    + rewrite length_map, length_firstn. lia.
    + apply (Sorted_map dist_le).
      * intros a b. unfold dist_le, sort_key. rewrite !mapResult_distance. auto.
      * apply Sorted_firstn, Hord.
Qed.

Lemma reverseGeocode_sorted_capped_witness :
  exists res w',
    reverseGeocode (riyadh_backend riyadh_rows false) (247 # 10) (466 # 10)
      (mkRevOpts (Some 1%nat) None None None) riyadh_world = (Ok res, w') /\
    res <> [] /\ (length res <= 1)%nat /\ Sorted dist_le res.
Proof.
  destruct (reverseGeocode (riyadh_backend riyadh_rows false) (247 # 10) (466 # 10)
              (mkRevOpts (Some 1%nat) None None None) riyadh_world)
    as [[res | e] w'] eqn:E; [| vm_compute in E; discriminate E].
  exists res, w'. split; [reflexivity|]. split.
  - vm_compute in E. injection E as <- _. discriminate.
  - exact (reverseGeocode_sorted_capped _ _ _ (mkRevOpts (Some 1%nat) None None None)
             _ _ _ example_order_by_sorted E).
Defined.

(** ** C1 and C4 *)

(** C1 (code bug): the three spellings of 13847 normalize alike and find
    the index entry, but the row predicate is built from the raw argument,
    so only the Western spelling returns the two records of 13847. *)
Theorem searchByPostcode_digit_forms :
  toWesternDigits arabic_13847 = js "13847" /\
  toWesternDigits persian_13847 = js "13847" /\
  fst (searchByPostcode (riyadh_backend riyadh_rows false) arabic_13847
         (mkPcOpts None None) postcode_world) = Ok [] /\
  fst (searchByPostcode (riyadh_backend riyadh_rows false) persian_13847
         (mkPcOpts None None) postcode_world) = Ok [] /\
  exists res, fst (searchByPostcode (riyadh_backend riyadh_rows false) (js "13847")
                     (mkPcOpts None None) postcode_world) = Ok res /\ length res = 2%nat.
Proof.
  split; [reflexivity|]. split; [reflexivity|].
  split; [vm_compute; reflexivity|]. split; [vm_compute; reflexivity|].
  eexists. split; [vm_compute; reflexivity | reflexivity].
Qed.

Lemma ins_obj_perm le (x : Obj) (l : list Obj) : Permutation (ins_obj le x l) (x :: l).
Proof.
  induction l as [|y l IH]; cbn; [reflexivity|].
  destruct (le x y); [reflexivity|].
  rewrite IH. apply perm_swap.
Qed.

Lemma example_order_by_perm (rows1 : list Row) (fail2 : bool) :
  order_by_permutes (riyadh_backend rows1 fail2).
Proof.
  intros spec objs. cbn [b_order_by riyadh_backend example_backend example_order_by].
  destruct spec as [|[k [|]] rest]; [reflexivity | |];
    (induction objs as [|x l IH]; cbn; [reflexivity|]; rewrite ins_obj_perm; now constructor).
Qed.

Lemma in_firstn_in {A} (n : nat) (x : A) (l : list A) : In x (firstn n l) -> In x l.
Proof. intros H. rewrite <- (firstn_skipn n l). apply in_or_app. now left. Qed.

(** The record of a row as built by [searchByPostcode]. *)
Lemma mapSearchRow_fields (row : Row) :
  get (mapSearchRow (project search_columns row)) "postcode" = jsopt (r_postcode row) /\
  get (mapSearchRow (project search_columns row)) "number" = jsopt (r_number row).
Proof. split; reflexivity. Qed.

Lemma opt_eqb_true (v : option jsstr) (s : jsstr) : opt_eqb v s = true -> v = Some s.
Proof.
  destruct v as [x|]; cbn; [|discriminate].
  unfold jseqb. intros H. apply bool_decide_eq_true in H. now subst.
Qed.

(** C4 (as stated, refuted): with the house-number filter ١٢ the record
    returned has number 12, not the number given. *)
Lemma searchByPostcode_number_counterexample :
  exists res w',
    searchByPostcode (riyadh_backend riyadh_rows false) (js "13847")
      (mkPcOpts None (Some arabic_12)) postcode_world = (Ok res, w') /\
    res <> [] /\
    Forall (fun r => get r "number" = JStr (js "12") /\ get r "number" <> JStr arabic_12) res.
Proof.
  eexists _, _. split; [vm_compute; reflexivity|]. vm_compute.
  split; [discriminate|]. repeat constructor. discriminate.
Qed.

Lemma truthy_toWesternDigits (s : jsstr) : truthy (toWesternDigits s) = truthy s.
Proof. unfold truthy, toWesternDigits, replace_digit_range. now rewrite !length_map. Qed.

(** C4 (amended): for a postcode without a quote character, every record
    returned by [searchByPostcode] has exactly that postcode; on an
    initialized instance a code whose trimmed, digit-normalized form has no
    index entry gives [[]] and no error; with a house-number option that is
    non-empty after trimming, every record has the trimmed,
    digit-normalized number. *)
Theorem searchByPostcode_exact (B : Backend) (code : jsstr) (o : PcOpts) (w : World) :
  order_by_permutes B ->
  has_quote code = false ->
  (initialized (sdk w) = true ->
   postcodeIndex (sdk w) !! toWesternDigits (trim code) = None ->
   searchByPostcode B code o w = (Ok [], w)) /\
  (forall res w', searchByPostcode B code o w = (Ok res, w') ->
   forall r, In r res ->
     get r "postcode" = JStr code /\
     (forall n, po_number o = Some n -> truthy (trim n) = true ->
        get r "number" = JStr (toWesternDigits (trim n)))).
Proof.
  intros Hperm Hq. split.
  - intros Hi Hnone. unfold searchByPostcode, ensureInitialized. unfold_monad.
    rewrite Hi. cbn. rewrite Hnone. reflexivity.
  - intros res w' H. unfold searchByPostcode, ensureInitialized, read_parquet in H.
    unfold_monad.
    destruct (initialized (sdk w)); cbn in H; [|discriminate H].
    destruct (postcodeIndex (sdk w) !! toWesternDigits (trim code)) as [info|]; cbn in H.
    2: { injection H as <- _. intros r []. }
    destruct (fetch_all B _) as [rows|]; cbn in H; [|discriminate H].
    injection H as <- _.
    intros r Hr. apply in_map_iff in Hr as [x [<- Hx]].
    unfold postcode_query in Hx. apply in_firstn_in in Hx.
    eapply Permutation_in in Hx; [|apply Hperm].
    apply in_map_iff in Hx as [row [<- Hrow]]. apply filter_In in Hrow as [_ Hw].
    unfold postcode_where in Hw. rewrite Hq in Hw. apply andb_prop in Hw as [Hp Hn].
    destruct (mapSearchRow_fields row) as [-> ->].
    rewrite (opt_eqb_true _ _ Hp). split; [reflexivity|].
    intros n Hon Ht. rewrite Hon in Hn.
    destruct (truthy n) eqn:Tn.
    + rewrite truthy_toWesternDigits, Ht in Hn. now rewrite (opt_eqb_true _ _ Hn).
    + destruct n; [discriminate Ht | discriminate Tn].
Qed.

Lemma searchByPostcode_exact_witness :
  has_quote (js "13847") = false /\
  (initialized (sdk postcode_world) = true ->
   postcodeIndex (sdk postcode_world) !! toWesternDigits (trim (js "13847")) = None ->
   searchByPostcode (riyadh_backend riyadh_rows false) (js "13847")
     (mkPcOpts None (Some arabic_12)) postcode_world = (Ok [], postcode_world)) /\
  (forall res w', searchByPostcode (riyadh_backend riyadh_rows false) (js "13847")
                    (mkPcOpts None (Some arabic_12)) postcode_world = (Ok res, w') ->
   forall r, In r res ->
     get r "postcode" = JStr (js "13847") /\
     (forall n, po_number (mkPcOpts None (Some arabic_12)) = Some n -> truthy (trim n) = true ->
        get r "number" = JStr (toWesternDigits (trim n)))).
Proof.
  split; [reflexivity|].
  apply searchByPostcode_exact; [apply example_order_by_perm | reflexivity].
Defined.

(** ** C2 *)

Lemma fetch_all_readable (B : Backend) (urls : list jsstr) (rows : list Row) :
  fetch_all B urls = Some rows -> all_readable B urls.
Proof.
  revert rows. induction urls as [|u us IH]; intros rows H v Hv; [destruct Hv|].
  cbn in H. destruct (b_tile_rows B u) eqn:E1; [|discriminate H].
  destruct (fetch_all B us) eqn:E2; [|discriminate H].
  destruct Hv as [<- | Hv]; [congruence | exact (IH _ eq_refl v Hv)].
Qed.

Lemma reverseGeocode_reads (B : Backend) lat lon (o : RevOpts) (w w' : World) res :
  reverseGeocode B lat lon o w = (Ok res, w') ->
  exists urls, reads w' = reads w ++ urls /\ all_readable B urls.
Proof.
  unfold reverseGeocode, isInSaudiArabia, ensureInitialized, read_parquet; unfold_monad.
  intros H. split_matches H.
  all: injection H as _ <-; cbn.
  all: first [ exists []; split; [now rewrite app_nil_r | intros u []]
             | eexists; split; [reflexivity | eapply fetch_all_readable; eassumption] ].
Qed.

Lemma geocode_reads (B : Backend) (address : jsstr) (o : GeoOpts) (w w' : World) res :
  geocode B address o w = (Ok res, w') ->
  exists urls, reads w' = reads w ++ urls /\ incl urls (geocode_urls (sdk w) o) /\
    (urls = [] \/ exists rows, fetch_all B (geocode_urls (sdk w) o) = Some rows).
Proof.
  unfold geocode, fts_query, ensureInitialized, read_parquet; unfold_monad.
  intros H. split_matches H.
  all: injection H as _ <-; cbn; unfold geocode_urls.
  all: first
    [ exists []; rewrite app_nil_r; split; [reflexivity | split; [intros u [] | now left]]
    | eexists; split; [reflexivity|];
      split; [apply incl_refl | right; eexists; eassumption]
    | eexists; split; [rewrite <- app_assoc; reflexivity|];
      split; [apply incl_app; apply incl_refl | right; eexists; eassumption] ].
Qed.

Lemma searchByPostcode_reads (B : Backend) (code : jsstr) (o : PcOpts) (w w' : World) res :
  searchByPostcode B code o w = (Ok res, w') ->
  exists urls, reads w' = reads w ++ urls /\ all_readable B urls.
Proof.
  unfold searchByPostcode, ensureInitialized, read_parquet; unfold_monad.
  intros H. split_matches H.
  all: injection H as _ <-; cbn.
  all: first [ exists []; split; [now rewrite app_nil_r | intros u []]
             | eexists; split; [reflexivity | eapply fetch_all_readable; eassumption] ].
Qed.

(** C2 (as stated, refuted): around a point near Riyadh, with
    [includeNeighbors] the call reads its own tile and a neighbour that
    cannot be read; the whole call fails although its own tile alone
    yields records. *)
Lemma reverseGeocode_partial_failure_counterexample :
  fst (reverseGeocode (riyadh_backend riyadh_rows true) (247 # 10) (466 # 10)
         (mkRevOpts None None None (Some true)) riyadh_world)
    = Err "IO Error: cannot read parquet file" /\
  exists res, fst (reverseGeocode (riyadh_backend riyadh_rows true) (247 # 10) (466 # 10)
                     (mkRevOpts None None None (Some false)) riyadh_world) = Ok res
              /\ length res = 2%nat.
Proof.
  split; [vm_compute; reflexivity|].
  eexists. split; [vm_compute; reflexivity | reflexivity].
Qed.

(** C2 (amended): the partitions of one call are read by a single engine
    request, so a call of [reverseGeocode], [geocode] or
    [searchByPostcode] that returns a result has read every partition it
    touched successfully: one unreadable partition makes the whole call
    fail, and no partial merge is returned. *)
Theorem multi_partition_all_or_nothing (B : Backend) (w w' : World) :
  (forall lat lon o res, reverseGeocode B lat lon o w = (Ok res, w') ->
     exists urls, reads w' = reads w ++ urls /\ all_readable B urls) /\
  (forall address o res, geocode B address o w = (Ok res, w') ->
     exists urls, reads w' = reads w ++ urls /\ all_readable B urls) /\
  (forall code o res, searchByPostcode B code o w = (Ok res, w') ->
     exists urls, reads w' = reads w ++ urls /\ all_readable B urls).
Proof.
  split; [|split].
  - intros lat lon o res. apply reverseGeocode_reads.
  - intros address o res H.
    destruct (geocode_reads B address o w w' res H) as (urls & Hr & Hincl & Hok).
    exists urls. split; [exact Hr|]. intros u Hu.
    destruct Hok as [-> | [rows Hf]]; [destruct Hu|].
    exact (fetch_all_readable B _ rows Hf u (Hincl u Hu)).
  - intros code o res. apply searchByPostcode_reads.
Qed.

Lemma multi_partition_all_or_nothing_witness :
  exists res w',
    reverseGeocode (riyadh_backend riyadh_rows false) (247 # 10) (466 # 10)
      (mkRevOpts None None None (Some true)) riyadh_world = (Ok res, w') /\
    exists urls, reads w' = reads riyadh_world ++ urls /\
                 all_readable (riyadh_backend riyadh_rows false) urls.
Proof.
  destruct (reverseGeocode (riyadh_backend riyadh_rows false) (247 # 10) (466 # 10)
              (mkRevOpts None None None (Some true)) riyadh_world)
    as [[res | e] w'] eqn:E; [| vm_compute in E; discriminate E].
  exists res, w'. split; [reflexivity|].
  exact (proj1 (multi_partition_all_or_nothing _ riyadh_world w') _ _ _ _ E).
Defined.

(** ** C9 *)

Ltac reads_from_tac :=
  unfold reads_from; apply List.Forall_forall; intros u Hu;
  repeat match type of Hu with
         | In u (_ :: _) => destruct Hu as [<- | Hu]; [eexists; reflexivity|]
         | In u [] => destruct Hu
         | In u (_ ++ _) => apply List.in_app_or in Hu as [Hu | Hu]
         | In u (map _ _) =>
             apply List.in_map_iff in Hu as [? [<- _]]; eexists; reflexivity
         end.

Ltac close_reads :=
  split; [reflexivity|];
  first [ exists []; rewrite app_nil_r; split; [reflexivity | constructor]
        | eexists; split; [reflexivity | reads_from_tac]
        | eexists; split; [rewrite <- app_assoc; reflexivity | reads_from_tac] ].

(** The partition reads of the three operations use the instance's
    current base location, which they leave unchanged. *)
Lemma operations_read_from_dataUrl (B : Backend) (w w' : World) :
  (forall lat lon o r, reverseGeocode B lat lon o w = (r, w') ->
     dataUrl (sdk w') = dataUrl (sdk w) /\
     exists urls, reads w' = reads w ++ urls /\ reads_from (dataUrl (sdk w)) urls) /\
  (forall address o r, geocode B address o w = (r, w') ->
     dataUrl (sdk w') = dataUrl (sdk w) /\
     exists urls, reads w' = reads w ++ urls /\ reads_from (dataUrl (sdk w)) urls) /\
  (forall code o r, searchByPostcode B code o w = (r, w') ->
     dataUrl (sdk w') = dataUrl (sdk w) /\
     exists urls, reads w' = reads w ++ urls /\ reads_from (dataUrl (sdk w)) urls).
Proof.
  split; [|split].
  - intros lat lon o r H.
    unfold reverseGeocode, isInSaudiArabia, ensureInitialized, read_parquet in H.
    unfold_monad. split_matches H.
    all: injection H as _ <-; cbn; close_reads.
  - intros address o r H.
    unfold geocode, fts_query, ensureInitialized, read_parquet in H.
    unfold_monad. split_matches H.
    all: injection H as _ <-; cbn; close_reads.
  - intros code o r H.
    unfold searchByPostcode, ensureInitialized, read_parquet in H.
    unfold_monad. split_matches H.
    all: injection H as _ <-; cbn; close_reads.
Qed.

Lemma later_reads_from_dataUrl (B : Backend) (w : World) :
  later_reads_from B (dataUrl (sdk w)) w.
Proof.
  split; [|split]; intros *; intros H.
  - exact (proj1 (operations_read_from_dataUrl B w w2) _ _ _ _ H).
  - exact (proj1 (proj2 (operations_read_from_dataUrl B w w2)) _ _ _ H).
  - exact (proj2 (proj2 (operations_read_from_dataUrl B w w2)) _ _ _ H).
Qed.

Lemma jseqb_neq (a b : jsstr) : a <> b -> jseqb a b = false.
Proof. intros H. unfold jseqb. now apply bool_decide_eq_false. Qed.

Lemma jseqb_refl (a : jsstr) : jseqb a a = true.
Proof. unfold jseqb. now apply bool_decide_eq_true. Qed.

(** Reduce the monadic plumbing of [initialize] without unfolding the
    locations. *)
Ltac init_cbn H :=
  cbn -[tile_index_url postcode_index_url world_countries_url sa_regions_url
        sa_districts_url DEFAULT_DATA_URL jseqb] in H.

Ltac init_prepare H Hinit Hinst Hsp Hh3 :=
  unfold initialize, load_tile_index, read_tile_index, read_postcode_index,
    create_view, query_ok in H;
  unfold_monad; cbn beta iota zeta in H;
  rewrite Hinit, Hinst, Hsp, Hh3 in H;
  destruct (b_extension _ "fts"); init_cbn H.

(** C9: when [initialize] cannot read the partition index at the configured
    base location, it reads the index once more at the default location
    [DEFAULT_DATA_URL], only if the configured one differs from it. When that
    second read succeeds, the base location becomes the default one: the
    postcode index and the boundary files are read there, and every later
    partition read of [reverseGeocode], [geocode] and [searchByPostcode]
    is under the default location. When the second read also fails,
    [initialize] raises an error. When the configured location is already
    the default one, no second read is made and [initialize] raises the
    read error. *)
Theorem initialize_index_fallback (B : Backend) (w : World)
  (Hinit : initialized (sdk w) = false)
  (Hinst : b_instantiate B = true)
  (Hsp : b_extension B "spatial" = true)
  (Hh3 : b_extension B "h3" = true)
  (Hcustom : b_tile_index B (tile_index_url (dataUrl (sdk w))) = None) :
  (dataUrl (sdk w) <> DEFAULT_DATA_URL ->
   forall idx, b_tile_index B (tile_index_url DEFAULT_DATA_URL) = Some idx ->
   forall r w', initialize B w = (r, w') ->
   dataUrl (sdk w') = DEFAULT_DATA_URL /\ tileIndex (sdk w') = idx /\
   (exists rest,
     reads w' = reads w ++ [tile_index_url (dataUrl (sdk w));
                            tile_index_url DEFAULT_DATA_URL;
                            postcode_index_url DEFAULT_DATA_URL] ++ rest /\
     incl rest [world_countries_url DEFAULT_DATA_URL; sa_regions_url DEFAULT_DATA_URL;
                sa_districts_url DEFAULT_DATA_URL]) /\
   later_reads_from B DEFAULT_DATA_URL w') /\
  (dataUrl (sdk w) <> DEFAULT_DATA_URL ->
   b_tile_index B (tile_index_url DEFAULT_DATA_URL) = None ->
   exists w', initialize B w =
     (Err "Failed to load tile index from both custom and default URLs", w') /\
   reads w' = reads w ++ [tile_index_url (dataUrl (sdk w)); tile_index_url DEFAULT_DATA_URL]) /\
  (dataUrl (sdk w) = DEFAULT_DATA_URL ->
   exists w', initialize B w = (Err "IO Error: cannot read tile index", w') /\
   reads w' = reads w ++ [tile_index_url DEFAULT_DATA_URL]).
Proof.
  split; [|split].
  - intros Hne idx Hidx r w' H.
    init_prepare H Hinit Hinst Hsp Hh3;
      rewrite Hcustom, (jseqb_neq _ _ Hne), Hidx in H; init_cbn H.
    all: destruct (b_postcode_index B (postcode_index_url DEFAULT_DATA_URL));
      cbn beta iota zeta in H.
    all: repeat (match type of H with
                 | context [b_boundary ?b ?u] => destruct (b_boundary b u)
                 end; cbn beta iota zeta in H).
    all: injection H as _ Hw.
    all: assert (Hd : dataUrl (sdk w') = DEFAULT_DATA_URL) by (rewrite <- Hw; reflexivity).
    all: split; [exact Hd | split; [rewrite <- Hw; reflexivity | split]];
      [| rewrite <- Hd; apply later_reads_from_dataUrl].
    all: rewrite <- Hw; cbn -[tile_index_url postcode_index_url world_countries_url
            sa_regions_url sa_districts_url DEFAULT_DATA_URL jseqb].
    all: eexists; split; [rewrite <- !app_assoc; cbn [app]; reflexivity |].
    all: repeat apply incl_cons;
      [ cbn [In]; repeat (first [left; reflexivity | right]) .. | apply incl_nil_l ].
  - intros Hne Hidx.
    destruct (initialize B w) as [r w'] eqn:H. exists w'.
    init_prepare H Hinit Hinst Hsp Hh3;
      rewrite Hcustom, (jseqb_neq _ _ Hne), Hidx in H; init_cbn H.
    all: injection H as <- <-; split; [reflexivity |].
    all: cbn -[tile_index_url DEFAULT_DATA_URL]; now rewrite <- app_assoc.
  - intros Hd.
    destruct (initialize B w) as [r w'] eqn:H. exists w'.
    init_prepare H Hinit Hinst Hsp Hh3;
      rewrite Hcustom, Hd, jseqb_refl in H; init_cbn H.
    all: injection H as <- <-; split; [reflexivity |].
    all: cbn -[tile_index_url DEFAULT_DATA_URL]; reflexivity.
Qed.

Lemma initialize_index_fallback_witness :
  dataUrl (sdk (snd (initialize fallback_backend fallback_world))) = DEFAULT_DATA_URL.
Proof.
  destruct (initialize fallback_backend fallback_world) as [r w'] eqn:E.
  refine (proj1 (proj1 (initialize_index_fallback fallback_backend fallback_world
                          _ _ _ _ _) _ [example_tile tile1 100] _ r w' E)).
  - reflexivity.
  - reflexivity.
  - reflexivity.
  - reflexivity.
  - vm_compute. reflexivity.
  - intros H. vm_compute in H. discriminate H.
  - vm_compute. reflexivity.
Defined.

(** ** C6 *)

Lemma insert_by_size_perm (x : TileInfo) (l : list TileInfo) :
  Permutation (insert_by_size x l) (x :: l).
Proof.
  induction l as [|y l IH]; cbn; [reflexivity|].
  destruct (file_size_kb x <=? file_size_kb y); [reflexivity|].
  rewrite IH. apply perm_swap.
Qed.

Lemma sort_by_size_perm (l : list TileInfo) : Permutation (sort_by_size l) l.
Proof.
  induction l as [|x l IH]; cbn; [reflexivity|].
  rewrite insert_by_size_perm. now apply perm_skip.
Qed.

Lemma insert_by_size_sorted (x : TileInfo) (l : list TileInfo) :
  Sorted size_le l -> Sorted size_le (insert_by_size x l).
Proof.
  induction 1 as [|y l Hl IH Hhd]; cbn; [repeat constructor|].
  destruct (file_size_kb x <=? file_size_kb y) eqn:E.
  - apply Z.leb_le in E. repeat constructor; auto.
  - apply Z.leb_gt in E. constructor; [exact IH|].
    destruct l as [|z l]; cbn; [constructor; unfold size_le; lia|].
    inversion Hhd; subst.
    destruct (file_size_kb x <=? file_size_kb z); constructor; unfold size_le in *; lia.
Qed.

Lemma sort_by_size_sorted (l : list TileInfo) : Sorted size_le (sort_by_size l).
Proof.
  induction l as [|x l IH]; cbn; [constructor|]. now apply insert_by_size_sorted.
Qed.

Lemma StronglySorted_app_rel {A} (R : A -> A -> Prop) (l1 l2 : list A) :
  StronglySorted R (l1 ++ l2) -> Forall (fun x => Forall (R x) l2) l1.
Proof.
  induction l1 as [|x l1 IH]; cbn; intros H; [constructor|].
  inversion H as [|? ? Hs Hf]; subst. constructor; [|now apply IH].
  apply List.Forall_forall. intros y Hy. rewrite List.Forall_forall in Hf.
  apply Hf, in_or_app. now right.
Qed.

Lemma length_filteri_from {A} (k : nat) (p : nat -> bool) (l : list A) :
  length (filteri_from k p l) = length (List.filter p (seq k (length l))).
Proof.
  revert k; induction l as [|x l IH]; intros k; cbn; [reflexivity|].
  destruct (p k); cbn; now rewrite IH.
Qed.

(** At most [ceil(n / s)] indices below [n] are multiples of [s]. *)
Lemma multiples_below (n s : nat) : (0 < s)%nat ->
  (length (List.filter (fun i => Nat.eqb (i mod s) 0) (seq 0 n)) <= ceil_div n s)%nat.
Proof.
  intros Hs.
  destruct n as [|n]; [cbn; lia|].
  replace (ceil_div (S n) s) with (length (map (fun j => j * s) (seq 0 (n / s + 1))))%nat.
  2:{ rewrite length_map, length_seq. unfold ceil_div.
      replace (S n + s - 1)%nat with (n + 1 * s)%nat by lia.
      rewrite Nat.div_add by lia. lia. }
  apply List.NoDup_incl_length.
  - apply List.NoDup_filter, List.seq_NoDup.
  - intros i Hi. apply List.filter_In in Hi as [Hi Hm].
    apply in_seq in Hi. apply Nat.eqb_eq in Hm.
    apply in_map_iff. exists (i / s)%nat. split.
    + pose proof (Nat.div_mod_eq i s). lia.
    + apply in_seq. split; [lia|].
      assert (i / s <= n / s)%nat by (apply Nat.Div0.div_le_mono; lia). lia.
Qed.

(** The stride [ceil(n / 50)] leaves at most 50 multiples below [n]. *)
Lemma stride_count_le (n : nat) : (0 < n)%nat ->
  (ceil_div n (ceil_div n MAX_TILES) <= MAX_TILES)%nat.
Proof.
  intros Hn. unfold MAX_TILES, ceil_div.
  set (s := ((n + 50 - 1) / 50)%nat).
  assert (Hs : (n <= 50 * s)%nat).
  { pose proof (Nat.div_mod_eq (n + 50 - 1) 50).
    pose proof (Nat.mod_upper_bound (n + 50 - 1) 50). subst s. lia. }
  assert (Hs0 : (s <> 0)%nat) by lia.
  apply Nat.lt_succ_r, Nat.Div0.div_lt_upper_bound. lia.
Qed.

Lemma geocode_reads_any (B : Backend) (address : jsstr) (o : GeoOpts) (w w' : World) r :
  geocode B address o w = (r, w') ->
  exists urls, reads w' = reads w ++ urls /\ incl urls (geocode_urls (sdk w) o).
Proof.
  unfold geocode, fts_query, ensureInitialized, read_parquet; unfold_monad.
  intros H. split_matches H.
  all: injection H as _ <-; cbn; unfold geocode_urls.
  all: first
    [ exists []; rewrite app_nil_r; split; [reflexivity | intros u []]
    | eexists; split; [reflexivity | apply incl_refl]
    | eexists; split; [rewrite <- app_assoc; reflexivity | apply incl_app; apply incl_refl] ].
Qed.

(** C6: when more than 50 tiles are candidates for [geocode], the tiles
    whose files [geocode] reads are among the kept tiles, and at most 50
    tiles are kept. With a bbox or region filter, the kept tiles are 50
    candidates none larger (by [file_size_kb]) than any candidate left out.
    Without a filter, the kept tiles are the candidates at the indices that
    are multiples of the stride [ceil(n / 50)], in their order. *)
Theorem geocode_tile_cap (B : Backend) (address : jsstr) (o : GeoOpts) (w w' : World) r
  (H : geocode B address o w = (r, w'))
  (Hbig : (MAX_TILES < length (geocode_candidates (tileIndex (sdk w)) o))%nat) :
  let c := geocode_candidates (tileIndex (sdk w)) o in
  let kept := cap_tiles (bbox_given o || region_given o) c in
  (exists urls, reads w' = reads w ++ urls /\
     incl urls (map (fun t => tile_url (dataUrl (sdk w)) (h3_tile t)) kept)) /\
  (length kept <= MAX_TILES)%nat /\
  (bbox_given o || region_given o = true ->
     length kept = MAX_TILES /\
     exists rest, Permutation (kept ++ rest) c /\
       Forall (fun t => Forall (fun u => file_size_kb t <= file_size_kb u) rest) kept) /\
  (bbox_given o || region_given o = false ->
     kept = filteri_from 0 (fun i => Nat.eqb (i mod ceil_div (length c) MAX_TILES) 0) c).
Proof.
  intros c kept. fold c in Hbig.
  assert (Hc : (0 < length c)%nat) by (unfold MAX_TILES in Hbig; lia).
  assert (Hstride : (length (filteri_from 0
            (fun i => Nat.eqb (i mod ceil_div (length c) MAX_TILES) 0) c) <= MAX_TILES)%nat).
  { rewrite length_filteri_from.
    eapply Nat.le_trans; [apply multiples_below|apply stride_count_le; exact Hc].
    unfold ceil_div, MAX_TILES. apply Nat.div_str_pos. lia. }
  assert (Hsorted : bbox_given o || region_given o = true ->
     length kept = MAX_TILES /\
     exists rest, Permutation (kept ++ rest) c /\
       Forall (fun t => Forall (fun u => file_size_kb t <= file_size_kb u) rest) kept).
  { intros Hf. subst kept. unfold cap_tiles. rewrite Hf.
    apply Nat.ltb_lt in Hbig as Hb. fold c in Hb |- *. rewrite Hb.
    split.
    - rewrite length_firstn, (Permutation_length (sort_by_size_perm c)). lia.
    - exists (skipn MAX_TILES (sort_by_size c)). split.
      + rewrite firstn_skipn. apply sort_by_size_perm.
      + apply StronglySorted_app_rel. rewrite firstn_skipn.
        apply Sorted_StronglySorted; [intros x y z; unfold size_le; lia|].
        apply sort_by_size_sorted. }
  assert (Hsample : bbox_given o || region_given o = false ->
     kept = filteri_from 0 (fun i => Nat.eqb (i mod ceil_div (length c) MAX_TILES) 0) c).
  { intros Hf. subst kept. unfold cap_tiles. rewrite Hf.
    apply Nat.ltb_lt in Hbig as Hb. fold c in Hb |- *. rewrite Hb.
    now apply firstn_all2. }
  split; [|split; [|split; assumption]].
  - apply geocode_reads_any in H. exact H.
  - destruct (bbox_given o || region_given o) eqn:Hf.
    + rewrite (proj1 (Hsorted eq_refl)). lia.
    + rewrite (Hsample eq_refl). exact Hstride.
Qed.

Lemma geocode_tile_cap_witness :
  (length (cap_tiles false (geocode_candidates big_index (mkGeoOpts None None None)))
     <= MAX_TILES)%nat.
Proof.
  destruct (geocode (riyadh_backend riyadh_rows false) (js "King Fahd Road")
              (mkGeoOpts None None None) (example_world big_index ∅)) as [r w'] eqn:E.
  refine (proj1 (proj2 (geocode_tile_cap _ _ _ _ _ _ E _))).
  apply Nat.ltb_lt. vm_compute. reflexivity.
Defined.

(** ** C7 *)

(** Neither ["a_"] nor its upper case is a substring of ["ab"] (upper case). *)
Lemma a_underscore_not_in_ab :
  ~ is_substring (js "a_") (js "ab") /\
  ~ is_substring (sql_upper (js "a_")) (sql_upper (js "ab")).
Proof.
  split; intros [pre [post H]]; assert (Hl := f_equal (@length Z) H);
    rewrite !length_app in Hl; cbn in Hl;
    (destruct pre; [|cbn in Hl; lia]); (destruct post; [|cbn in Hl; lia]);
    vm_compute in H; discriminate H.
Qed.

(** C7 (as stated, refuted): without ranked search, [geocode "a_"] keeps
    its one term ["a_"], yet returns the record whose English address is
    ["ab"], which contains neither ["a_"] nor ["A_"]: the term is placed
    inside a [LIKE] pattern, where [_] matches any character. *)
Theorem geocode_like_wildcard :
  searchTerms (escape_quotes (toWesternDigits (trim (js "a_")))) = [js "a_"] /\
  match geocode wildcard_backend (js "a_") (mkGeoOpts None None None) wildcard_world with
  | (Ok [o], _) => get o "full_address_en" = JStr (js "ab")
  | _ => False
  end /\
  ~ is_substring (js "a_") (js "ab") /\
  ~ is_substring (sql_upper (js "a_")) (sql_upper (js "ab")).
Proof.
  split; [vm_compute; reflexivity|]. split; [vm_compute; reflexivity|].
  exact a_underscore_not_in_ab.
Qed.

(* ================================================================== *)
(** * Further properties of the SDK *)

(** ** String helpers *)

(** The Western digit for one code unit, as [toWesternDigits] maps it. *)
Lemma toWesternDigits_map (s : jsstr) :
  toWesternDigits s =
  map (fun c => if (1632 <=? c) && (c <=? 1641) then c - 1584
                else if (1776 <=? c) && (c <=? 1785) then c - 1728 else c) s.
Proof.
  unfold toWesternDigits, replace_digit_range, arabicStart, persianStart.
  rewrite map_map. apply map_ext. intros c.
  destruct ((1632 <=? c) && (c <=? 1632 + 9)) eqn:E1;
    [apply andb_prop in E1 as [E1 E1']; apply Z.leb_le in E1, E1' |].
  - replace ((1776 <=? 48 + (c - 1632)) && (48 + (c - 1632) <=? 1776 + 9)) with false
      by (symmetry; apply andb_false_iff; left; apply Z.leb_gt; lia).
    replace ((1632 <=? c) && (c <=? 1641)) with true
      by (symmetry; apply andb_true_iff; split; apply Z.leb_le; lia).
    lia.
  - replace ((1632 <=? c) && (c <=? 1641)) with false by (rewrite <- E1; reflexivity).
    replace (1776 + 9) with 1785 by reflexivity.
    destruct ((1776 <=? c) && (c <=? 1785)); lia.
Qed.

(** X1: [toWesternDigits] replaces each Arabic-Indic digit (U+0660..U+0669)
    and each Persian digit (U+06F0..U+06F9) by the Western digit of the
    same value, keeps every other code unit and the length, and is
    idempotent. *)
Theorem toWesternDigits_spec (s : jsstr) :
  length (toWesternDigits s) = length s /\
  (forall i c, nth_error s i = Some c ->
     nth_error (toWesternDigits s) i =
       Some (if (1632 <=? c) && (c <=? 1641) then 48 + (c - 1632)
             else if (1776 <=? c) && (c <=? 1785) then 48 + (c - 1776) else c)) /\
  toWesternDigits (toWesternDigits s) = toWesternDigits s.
Proof.
  rewrite !toWesternDigits_map. split; [|split].
  - apply length_map.
  - intros i c Hc. rewrite nth_error_map, Hc. cbn. f_equal.
    destruct ((1632 <=? c) && (c <=? 1641)); [lia|].
    destruct ((1776 <=? c) && (c <=? 1785)); lia.
  - rewrite map_map. apply map_ext. intros c.
    destruct ((1632 <=? c) && (c <=? 1641)) eqn:E1.
    + apply andb_prop in E1 as [E1 E1']; apply Z.leb_le in E1, E1'.
      replace ((1632 <=? c - 1584) && (c - 1584 <=? 1641)) with false
        by (symmetry; apply andb_false_iff; left; apply Z.leb_gt; lia).
      replace ((1776 <=? c - 1584) && (c - 1584 <=? 1785)) with false
        by (symmetry; apply andb_false_iff; left; apply Z.leb_gt; lia).
      reflexivity.
    + destruct ((1776 <=? c) && (c <=? 1785)) eqn:E2.
      * apply andb_prop in E2 as [E2 E2']; apply Z.leb_le in E2, E2'.
        replace ((1632 <=? c - 1728) && (c - 1728 <=? 1641)) with false
          by (symmetry; apply andb_false_iff; left; apply Z.leb_gt; lia).
        replace ((1776 <=? c - 1728) && (c - 1728 <=? 1785)) with false
          by (symmetry; apply andb_false_iff; left; apply Z.leb_gt; lia).
        reflexivity.
      * rewrite E1, E2. reflexivity.
Qed.

Lemma unescape_escape (s : jsstr) : unescape_quotes (escape_quotes s) = s.
Proof.
  induction s as [|c s IH]; [reflexivity|].
  cbn [escape_quotes flat_map].
  destruct (c =? quote_cu) eqn:E.
  - apply Z.eqb_eq in E. subst c.
    change (unescape_quotes (quote_cu :: quote_cu :: escape_quotes s) = quote_cu :: s).
    cbn [unescape_quotes]. rewrite Z.eqb_refl. cbn [andb]. now rewrite IH.
  - cbn [app]. fold (escape_quotes s). rewrite <- IH at 2.
    destruct (escape_quotes s) as [|c' s'']; [reflexivity|].
    cbn [unescape_quotes]. now rewrite E.
Qed.

(** X2: the SQL string literal written from [s.replace(/'/g, "''")] reads
    back as [s]: quoting a text for SQL loses nothing. *)
Theorem unescape_escape_quotes (s : jsstr) : unescape_quotes (escape_quotes s) = s.
Proof. exact (unescape_escape s). Qed.

Lemma like_percent_any (s : jsstr) : like s [percent_cu] = true.
Proof.
  cbn [like]. rewrite Z.eqb_refl. apply existsb_exists. exists (length s). split.
  - apply in_seq. lia.
  - now rewrite skipn_all.
Qed.

Lemma like_percent_skip (pre m p : jsstr) :
  like m p = true -> like (pre ++ m) (percent_cu :: p) = true.
Proof.
  intros H. cbn [like]. rewrite Z.eqb_refl. apply existsb_exists.
  exists (length pre). split.
  - apply in_seq. rewrite length_app. lia.
  - now rewrite skipn_app, skipn_all, Nat.sub_diag.
Qed.

Lemma like_same_prefix (t s p : jsstr) :
  like s p = true -> like (t ++ s) (t ++ p) = true.
Proof.
  intros H. induction t as [|c t IH]; [exact H|].
  cbn [app like]. destruct (c =? percent_cu) eqn:E.
  - apply existsb_exists. exists 1%nat. split.
    + apply in_seq. cbn. lia.
    + exact IH.
  - rewrite Z.eqb_refl, orb_true_r. exact IH.
Qed.

Lemma like_contains (pre t post : jsstr) :
  like (pre ++ t ++ post) ([percent_cu] ++ t ++ [percent_cu]) = true.
Proof.
  apply like_percent_skip, like_same_prefix, like_percent_any.
Qed.

(** X3: the text gate of the fallback search of [geocode] never rejects an
    address that contains one of the search terms (read back from its SQL
    literal; compared after [UPPER] for Latin script): with no terms the
    gate is [TRUE], and otherwise an address containing a term passes. *)
Theorem contains_conditions_complete (isArabic : bool) (terms : list jsstr) (addr : jsstr) :
  (terms = [] \/ exists term, In term terms /\ is_substring (unescape_quotes term) addr) ->
  contains_conditions isArabic terms addr = true.
Proof.
  intros [-> | [term [Hin [pre [post Ha]]]]]; [reflexivity|].
  destruct terms as [|t0 ts]; [destruct Hin|].
  unfold contains_conditions. apply existsb_exists. exists term. split; [exact Hin|].
  unfold term_condition. subst addr. destruct isArabic.
  - apply like_contains.
  - unfold sql_upper. rewrite !map_app. apply like_contains.
Qed.

(** ** [searchByNumber] *)

(** X4: every record returned by [searchByNumber(number)] has as house
    number exactly the trimmed, digit-normalized [number], quotes
    included (given that the engine's [ORDER BY] only reorders rows). *)
Theorem searchByNumber_number (B : Backend) (number : jsstr) (o : NumOpts) (w w' : World) res :
  order_by_permutes B ->
  searchByNumber B number o w = (Ok res, w') ->
  forall r, In r res -> get r "number" = JStr (toWesternDigits (trim number)).
Proof.
  intros Hperm H. unfold searchByNumber, ensureInitialized, read_parquet in H.
  unfold_monad.
  destruct (initialized (sdk w)); cbn in H; [|discriminate H].
  destruct (length (number_tiles (tileIndex (sdk w)) o) =? 0)%nat; cbn in H.
  { injection H as <- _. intros r []. }
  destruct (fetch_all B _) as [rows|]; cbn in H; [|discriminate H].
  injection H as <- _.
  intros r Hr. apply in_map_iff in Hr as [x [<- Hx]].
  apply in_firstn_in in Hx. eapply Permutation_in in Hx; [|apply Hperm].
  apply in_map_iff in Hx as [row [<- Hrow]]. apply filter_In in Hrow as [_ Hw].
  rewrite unescape_escape in Hw.
  destruct (mapSearchRow_fields row) as [_ ->].
  now rewrite (opt_eqb_true _ _ Hw).
Qed.

Lemma searchByNumber_reads_any (B : Backend) (number : jsstr) (o : NumOpts) (w w' : World) r :
  searchByNumber B number o w = (r, w') ->
  sdk w' = sdk w /\
  (reads w' = reads w \/
   reads w' = reads w ++ map (fun t => tile_url (dataUrl (sdk w)) (h3_tile t))
                             (number_tiles (tileIndex (sdk w)) o)).
Proof.
  intros H. unfold searchByNumber, ensureInitialized, read_parquet in H. unfold_monad.
  split_matches H; injection H as _ <-; cbn; split; auto.
Qed.

(** X5: [searchByNumber] leaves the instance unchanged and either reads no
    file or reads, in one request, the files of its selected tiles under
    the current base location. Without a region and a bbox, the selected
    tiles are the first 20 of the partition index, so at most 20 files
    are read. *)
Theorem searchByNumber_reads (B : Backend) (number : jsstr) (o : NumOpts) (w w' : World) r :
  searchByNumber B number o w = (r, w') ->
  sdk w' = sdk w /\
  (reads w' = reads w \/
   reads w' = reads w ++ map (fun t => tile_url (dataUrl (sdk w)) (h3_tile t))
                             (number_tiles (tileIndex (sdk w)) o)) /\
  (no_bbox o = None -> (no_region o = None \/ exists rg, no_region o = Some rg /\ truthy rg = false) ->
   exists tiles, tiles = firstn 20 (tileIndex (sdk w)) /\ (length tiles <= 20)%nat /\
     (reads w' = reads w \/
      reads w' = reads w ++ map (fun t => tile_url (dataUrl (sdk w)) (h3_tile t)) tiles)).
Proof.
  intros H. pose proof (searchByNumber_reads_any B number o w w' r H) as Hr.
  split; [exact (proj1 Hr)|split; [exact (proj2 Hr)|]].
  intros Hb Hrg. exists (firstn 20 (tileIndex (sdk w))).
  split; [reflexivity|split; [rewrite length_firstn; lia|]].
  assert (Hn : number_tiles (tileIndex (sdk w)) o = firstn 20 (tileIndex (sdk w))).
  { unfold number_tiles. rewrite Hb.
    destruct Hrg as [-> | [rg [-> ->]]]; reflexivity. }
  rewrite <- Hn. exact (proj2 Hr).
Qed.

(** X6: the two text-free searches give their filters opposite
    priorities. [geocode] with a bbox ignores the region option, while
    [searchByNumber] with a non-empty region ignores the bbox option. *)
Theorem filter_priority (B : Backend) (w : World) :
  (forall address limit bbox region,
     geocode B address (mkGeoOpts limit (Some bbox) region) w =
     geocode B address (mkGeoOpts limit (Some bbox) None) w) /\
  (forall number region bbox limit, truthy region = true ->
     searchByNumber B number (mkNumOpts (Some region) bbox limit) w =
     searchByNumber B number (mkNumOpts (Some region) None limit) w).
Proof.
  split.
  - intros address limit [[[a b] c] d] region. reflexivity.
  - intros number region bbox limit Ht.
    unfold searchByNumber, number_tiles. cbn [no_region no_bbox no_limit]. now rewrite Ht.
Qed.

(** X7: on an initialized instance, a [geocode] whose filters select no
    tile, and a [searchByNumber] that selects no tile, return the empty
    list without reading any file or changing the instance. *)
Theorem no_tiles_no_reads (B : Backend) (w : World) :
  initialized (sdk w) = true ->
  (forall address o, geocode_candidates (tileIndex (sdk w)) o = [] ->
     geocode B address o w = (Ok [], w)) /\
  (forall number o, number_tiles (tileIndex (sdk w)) o = [] ->
     searchByNumber B number o w = (Ok [], w)).
Proof.
  intros Hi. split.
  - intros address o He. unfold geocode, ensureInitialized. unfold_monad.
    rewrite Hi. cbn. rewrite He. reflexivity.
  - intros number o He. unfold searchByNumber, ensureInitialized. unfold_monad.
    rewrite Hi. cbn. rewrite He. reflexivity.
Qed.

Lemma contains_conditions_complete_witness :
  contains_conditions false [js "ab"] (js "xaby") = true.
Proof.
  apply contains_conditions_complete. right. exists (js "ab").
  split; [left; reflexivity|]. exists [120], [121]. reflexivity.
Defined.

Lemma searchByNumber_number_witness :
  exists res w',
    searchByNumber (riyadh_backend riyadh_rows false) (js " 12 ") (mkNumOpts None None None)
      riyadh_world = (Ok res, w') /\
    res <> [] /\ forall r, In r res -> get r "number" = JStr (js "12").
Proof.
  case_eq (searchByNumber (riyadh_backend riyadh_rows false) (js " 12 ")
             (mkNumOpts None None None) riyadh_world).
  intros [res|e] w' E; [|vm_compute in E; congruence].
  exists res, w'. split; [reflexivity|]. split.
  - intros ->. vm_compute in E. congruence.
  - exact (searchByNumber_number (riyadh_backend riyadh_rows false) (js " 12 ")
             (mkNumOpts None None None) riyadh_world w' res
             (example_order_by_perm riyadh_rows false) E).
Defined.

Lemma searchByNumber_reads_witness :
  exists r w',
    searchByNumber (riyadh_backend riyadh_rows false) (js "12") (mkNumOpts None None None)
      riyadh_world = (r, w') /\
    exists tiles, tiles = firstn 20 (tileIndex (sdk riyadh_world)) /\ (length tiles <= 20)%nat /\
      (reads w' = reads riyadh_world \/
       reads w' = reads riyadh_world ++
                    map (fun t => tile_url (dataUrl (sdk riyadh_world)) (h3_tile t)) tiles).
Proof.
  case_eq (searchByNumber (riyadh_backend riyadh_rows false) (js "12")
             (mkNumOpts None None None) riyadh_world).
  intros r w' E. exists r, w'. split; [reflexivity|].
  destruct (searchByNumber_reads (riyadh_backend riyadh_rows false) (js "12")
              (mkNumOpts None None None) riyadh_world w' r E) as [_ [_ H3]].
  exact (H3 eq_refl (or_introl eq_refl)).
Defined.

Lemma filter_priority_witness :
  searchByNumber (riyadh_backend riyadh_rows false) (js "12")
    (mkNumOpts (Some (js "Riyadh")) (Some (0, 0, 1, 1)%Q) None) riyadh_world =
  searchByNumber (riyadh_backend riyadh_rows false) (js "12")
    (mkNumOpts (Some (js "Riyadh")) None None) riyadh_world.
Proof. apply (proj2 (filter_priority (riyadh_backend riyadh_rows false) riyadh_world)). reflexivity. Defined.

Lemma no_tiles_no_reads_witness :
  geocode (riyadh_backend riyadh_rows false) (js "12")
    (mkGeoOpts None None (Some (js "Jeddah"))) riyadh_world = (Ok [], riyadh_world) /\
  searchByNumber (riyadh_backend riyadh_rows false) (js "12")
    (mkNumOpts (Some (js "Jeddah")) None None) riyadh_world = (Ok [], riyadh_world).
Proof.
  destruct (no_tiles_no_reads (riyadh_backend riyadh_rows false) riyadh_world eq_refl) as [H1 H2].
  split; [apply H1 | apply H2]; vm_compute; reflexivity.
Defined.

(** ** Which files are read *)






Lemma jseqb_true (a b : jsstr) : jseqb a b = true -> a = b.
Proof. unfold jseqb. apply bool_decide_eq_true_1. Qed.



(** ** Result sizes *)

(** X9: no query returns more records than its limit: [reverseGeocode]
    and [geocode] at most [limit] (default 10), [searchByPostcode] at most
    [limit] (default 50) and [searchByNumber] at most [limit] (default 20). *)
Theorem results_within_limit (B : Backend) (w w' : World) :
  (forall lat lon o res, reverseGeocode B lat lon o w = (Ok res, w') ->
     (length res <= default_of 10 (ro_limit o))%nat) /\
  (forall address o res, geocode B address o w = (Ok res, w') ->
     (length res <= default_of 10 (go_limit o))%nat) /\
  (forall code o res, searchByPostcode B code o w = (Ok res, w') ->
     (length res <= default_of 50 (po_limit o))%nat) /\
  (forall number o res, searchByNumber B number o w = (Ok res, w') ->
     (length res <= default_of 20 (no_limit o))%nat).
Proof.
  split; [|split; [|split]]; intros *; intros H.
  - unfold reverseGeocode, isInSaudiArabia, ensureInitialized, read_parquet in H.
    unfold_monad. split_matches H.
    all: injection H as <- _; cbn; try lia.
    all: unfold mapResultsToGeocodingResult, reverse_query;
         rewrite length_map, length_firstn; lia.
  - unfold geocode, fts_query, ensureInitialized, read_parquet in H.
    unfold_monad. split_matches H.
    all: injection H as <- _; cbn; try lia.
    all: unfold fallback_query; rewrite ?length_map, ?length_firstn; lia.
  - unfold searchByPostcode, ensureInitialized, read_parquet in H.
    unfold_monad. split_matches H.
    all: injection H as <- _; cbn; try lia.
    all: unfold postcode_query; rewrite length_map, length_firstn; lia.
  - unfold searchByNumber, ensureInitialized, read_parquet in H.
    unfold_monad. split_matches H.
    all: injection H as <- _; cbn; try lia.
    all: rewrite length_map, length_firstn; lia.
Qed.

Lemma results_within_limit_witness :
  exists res w',
    reverseGeocode (riyadh_backend riyadh_rows false) (247 # 10) (466 # 10)
      (mkRevOpts (Some 1%nat) None None None) riyadh_world = (Ok res, w') /\
    (length res <= 1)%nat.
Proof.
  destruct (reverseGeocode (riyadh_backend riyadh_rows false) (247 # 10) (466 # 10)
              (mkRevOpts (Some 1%nat) None None None) riyadh_world)
    as [[res | e] w'] eqn:E; [| vm_compute in E; discriminate E].
  exists res, w'. split; [reflexivity|].
  exact (proj1 (results_within_limit _ riyadh_world w') _ _ _ _ E).
Defined.

(** ** What the queries change *)

Lemma reverseGeocode_state (B : Backend) lat lon (o : RevOpts) (w w' : World) r :
  reverseGeocode B lat lon o w = (r, w') ->
  exists lt,
    sdk w' = mkSdk (initialized (sdk w)) (ftsAvailable (sdk w)) (dataUrl (sdk w))
                   (tileIndex (sdk w)) (postcodeIndex (sdk w)) lt /\
    (lt = loadedTiles (sdk w) \/
     exists res ti, r = Ok res /\ In ti (tileIndex (sdk w)) /\
                    ~ In (h3_tile ti) (loadedTiles (sdk w)) /\
                    lt = loadedTiles (sdk w) ++ [h3_tile ti]) /\
    (NoDup (loadedTiles (sdk w)) -> NoDup lt).
Proof.
  destruct w as [[i f d idx pidx lt0] rd]. cbn [sdk initialized ftsAvailable dataUrl
    tileIndex postcodeIndex loadedTiles].
  intros H. unfold reverseGeocode, isInSaudiArabia, ensureInitialized, read_parquet in H.
  unfold_monad. cbn [sdk initialized ftsAvailable dataUrl tileIndex postcodeIndex
    loadedTiles reads] in H. split_matches H.
  all: injection H as <- <-; cbn.
  all: try (exists lt0; split; [reflexivity | split; [now left | exact id]]).
  all: match goal with
       | E : find _ _ = Some ?t0 |- _ =>
           apply find_some in E as [Ht0 Heq]; apply jseqb_true in Heq
       end.
  all: unfold add_loadedTile; cbn.
  all: eexists; split; [reflexivity|].
  all: destruct (existsb (fun u => bool_decide (u = _)) lt0) eqn:Ex;
       [split; [now left | exact id]|].
  all: split; [right; eexists; exists t; split; [reflexivity|];
               split; [exact Ht0|]; rewrite Heq; split; [|reflexivity] | ].
  all: try (intros Hin; apply Bool.not_true_iff_false in Ex; apply Ex;
            apply existsb_exists; exists l; split; [exact Hin|];
            now apply bool_decide_eq_true_2).
  all: intros Hnd; apply NoDup_app; split; [exact Hnd | split; [|apply NoDup_singleton]].
  all: intros x Hx Hx'; apply list_elem_of_singleton in Hx'; subst x;
       apply list_elem_of_In in Hx; apply Bool.not_true_iff_false in Ex; apply Ex;
       apply existsb_exists; eexists; split; [exact Hx|];
       now apply bool_decide_eq_true_2.
Qed.

(** X10: [reverseGeocode] changes nothing of the instance but its set of
    loaded tiles, and that set only grows, by the point's own tile, when
    that tile is listed in the partition index, was not loaded yet and the
    call succeeds; so the loaded tiles never repeat and are all tiles of
    the index. *)
Theorem reverseGeocode_loadedTiles (B : Backend) lat lon (o : RevOpts) (w w' : World) r :
  reverseGeocode B lat lon o w = (r, w') ->
  exists lt,
    sdk w' = mkSdk (initialized (sdk w)) (ftsAvailable (sdk w)) (dataUrl (sdk w))
                   (tileIndex (sdk w)) (postcodeIndex (sdk w)) lt /\
    (lt = loadedTiles (sdk w) \/
     exists res ti, r = Ok res /\ In ti (tileIndex (sdk w)) /\
                    ~ In (h3_tile ti) (loadedTiles (sdk w)) /\
                    lt = loadedTiles (sdk w) ++ [h3_tile ti]) /\
    (NoDup (loadedTiles (sdk w)) -> NoDup lt).
Proof. exact (reverseGeocode_state B lat lon o w w' r). Qed.

Lemma reverseGeocode_loadedTiles_witness :
  exists r w',
    reverseGeocode (riyadh_backend riyadh_rows false) (247 # 10) (466 # 10)
      (mkRevOpts None None None None) riyadh_world = (r, w') /\
    loadedTiles (sdk w') = [tile1] /\
    exists lt,
      sdk w' = mkSdk (initialized (sdk riyadh_world)) (ftsAvailable (sdk riyadh_world))
                     (dataUrl (sdk riyadh_world)) (tileIndex (sdk riyadh_world))
                     (postcodeIndex (sdk riyadh_world)) lt /\
      (lt = loadedTiles (sdk riyadh_world) \/
       exists res ti, r = Ok res /\ In ti (tileIndex (sdk riyadh_world)) /\
                      ~ In (h3_tile ti) (loadedTiles (sdk riyadh_world)) /\
                      lt = loadedTiles (sdk riyadh_world) ++ [h3_tile ti]) /\
      (NoDup (loadedTiles (sdk riyadh_world)) -> NoDup lt).
Proof.
  case_eq (reverseGeocode (riyadh_backend riyadh_rows false) (247 # 10) (466 # 10)
             (mkRevOpts None None None None) riyadh_world).
  intros r w' E. exists r, w'. split; [reflexivity|]. split.
  - vm_compute in E. injection E as _ <-. reflexivity.
  - exact (reverseGeocode_loadedTiles (riyadh_backend riyadh_rows false) _ _ _ _ w' r E).
Defined.



(** ** Uninitialized and closed instances *)

(** X12: on an instance that is not initialized (a new one, or one that
    was closed), every query throws "GeoSDK not initialized. Call
    initialize() first." before reading any file or changing the
    instance. *)
Theorem uninitialized_rejects (B : Backend) (w : World) :
  initialized (sdk w) = false ->
  (forall lat lon o, reverseGeocode B lat lon o w =
     (Err "GeoSDK not initialized. Call initialize() first.", w)) /\
  (forall address o, geocode B address o w =
     (Err "GeoSDK not initialized. Call initialize() first.", w)) /\
  (forall query o, geocodeFTS B query o w =
     (Err "GeoSDK not initialized. Call initialize() first.", w)) /\
  (forall code o, searchByPostcode B code o w =
     (Err "GeoSDK not initialized. Call initialize() first.", w)) /\
  (forall number o, searchByNumber B number o w =
     (Err "GeoSDK not initialized. Call initialize() first.", w)) /\
  (forall lat lon, isInSaudiArabia B lat lon w =
     (Err "GeoSDK not initialized. Call initialize() first.", w)) /\
  getStats w = (Err "GeoSDK not initialized. Call initialize() first.", w).
Proof.
  intros Hi.
  unfold reverseGeocode, geocode, geocodeFTS, searchByPostcode, searchByNumber,
    isInSaudiArabia, getStats, ensureInitialized.
  unfold_monad. rewrite Hi. repeat split.
Qed.

Lemma uninitialized_rejects_witness :
  reverseGeocode (riyadh_backend riyadh_rows false) (247 # 10) (466 # 10)
    (mkRevOpts None None None None) (mkWorld (GeoSDKH3_new (Some custom_url)) []) =
  (Err "GeoSDK not initialized. Call initialize() first.",
   mkWorld (GeoSDKH3_new (Some custom_url)) []).
Proof.
  exact (proj1 (uninitialized_rejects (riyadh_backend riyadh_rows false)
                  (mkWorld (GeoSDKH3_new (Some custom_url)) []) eq_refl) _ _ _).
Defined.


(** X14: [geocodeFTS] answers exactly as [geocode] does, with the same
    effects, whether the FTS extension loads or not. *)
Theorem geocodeFTS_is_geocode (B : Backend) (query : jsstr) (o : GeoOpts) (w : World) :
  geocodeFTS B query o w = geocode B query o w.
Proof.
  unfold geocodeFTS. unfold ensureInitialized at 1, query_ok. unfold_monad.
  destruct (initialized (sdk w)) eqn:Hi.
  - destruct (b_extension B "fts"); reflexivity.
  - unfold geocode, ensureInitialized. unfold_monad. now rewrite Hi.
Qed.

(** ** The postcode index *)

Lemma load_postcodes_snoc (m : gmap jsstr PostcodeInfo) (rows : list PostcodeInfo) p :
  load_postcodes m (rows ++ [p]) = <[pc_postcode p := p]> (load_postcodes m rows).
Proof. unfold load_postcodes. now rewrite fold_left_app. Qed.

(** X15: loading the rows of the postcode index into the map: the entry of
    a postcode [k] is the last row whose [postcode] is [k], and entries of
    postcodes that no row names are kept as they were. Every entry is
    stored under its own [postcode], when that already held of the map. *)
Theorem load_postcodes_lookup (m : gmap jsstr PostcodeInfo) (rows : list PostcodeInfo) :
  (forall k, load_postcodes m rows !! k =
     match find (fun p => jseqb (pc_postcode p) k) (rev rows) with
     | Some p => Some p
     | None => m !! k
     end) /\
  ((forall k p, m !! k = Some p -> pc_postcode p = k) ->
   forall k p, load_postcodes m rows !! k = Some p -> pc_postcode p = k).
Proof.
  assert (Hl : forall k, load_postcodes m rows !! k =
     match find (fun p => jseqb (pc_postcode p) k) (rev rows) with
     | Some p => Some p
     | None => m !! k
     end).
  { induction rows as [|p rows IH] using rev_ind; intros k; [reflexivity|].
    rewrite load_postcodes_snoc, rev_app_distr. cbn [rev app find].
    destruct (jseqb (pc_postcode p) k) eqn:E.
    - apply jseqb_true in E. subst k. apply lookup_insert_eq.
    - rewrite lookup_insert_ne; [apply IH|].
      intros Heq. rewrite Heq, jseqb_refl in E. discriminate E. }
  split; [exact Hl|].
  intros Hm k p Hp. rewrite Hl in Hp.
  destruct (find _ (rev rows)) as [q|] eqn:E; [|exact (Hm k p Hp)].
  injection Hp as <-. apply find_some in E as [_ E]. exact (jseqb_true _ _ E).
Qed.

Lemma load_postcodes_lookup_witness :
  load_postcodes ∅ [mkPostcode (js "13847") [tile1] 2 None None;
                    mkPostcode (js "13848") [tile2] 1 None None;
                    mkPostcode (js "13847") [tile1; tile2] 3 None None] !! js "13847"
    = Some (mkPostcode (js "13847") [tile1; tile2] 3 None None) /\
  pc_postcode (mkPostcode (js "13847") [tile1; tile2] 3 None None) = js "13847".
Proof.
  assert (Hl : load_postcodes ∅ [mkPostcode (js "13847") [tile1] 2 None None;
                                 mkPostcode (js "13848") [tile2] 1 None None;
                                 mkPostcode (js "13847") [tile1; tile2] 3 None None] !! js "13847"
               = Some (mkPostcode (js "13847") [tile1; tile2] 3 None None)).
  { rewrite (proj1 (load_postcodes_lookup ∅ _) (js "13847")). vm_compute. reflexivity. }
  split; [exact Hl|].
  refine (proj2 (load_postcodes_lookup ∅ _) _ (js "13847") _ Hl).
  intros k p H. rewrite lookup_empty in H. discriminate H.
Defined.

Lemma startsWith_app (s prefix : jsstr) :
  startsWith s prefix = true <-> exists rest, s = prefix ++ rest.
Proof.
  revert s. induction prefix as [|c p IH]; intros s; cbn.
  - split; [intros _; now exists s | intros _; now destruct s].
  - destruct s as [|x s].
    + split; [discriminate | intros [rest H]; discriminate H].
    + change (startsWith (x :: s) (c :: p)) with ((c =? x) && startsWith s p).
      rewrite andb_true_iff, Z.eqb_eq, IH. split.
      * intros [-> [rest ->]]. now exists rest.
      * intros [rest H]. injection H as -> ->. split; [reflexivity|]. now exists rest.
Qed.

(** X16: [getPostcodes(prefix)] lists the entries of the postcode index;
    with a non-empty [prefix] exactly the entries whose postcode starts
    with [prefix], and with no prefix or an empty one all entries, each
    once per key. *)
Theorem getPostcodes_members (pidx : gmap jsstr PostcodeInfo) (prefix : option jsstr)
    (p : PostcodeInfo) :
  In p (getPostcodes pidx prefix) <->
  (exists k, pidx !! k = Some p) /\
  (forall pre, prefix = Some pre -> truthy pre = true ->
     exists rest, pc_postcode p = pre ++ rest).
Proof.
  assert (Hall : In p (map snd (map_to_list pidx)) <-> exists k, pidx !! k = Some p).
  { rewrite in_map_iff. split.
    - intros [[k q] [Hq Hin]]. cbn in Hq. subst q. exists k.
      apply elem_of_map_to_list. now apply list_elem_of_In.
    - intros [k Hk]. exists (k, p). split; [reflexivity|].
      apply list_elem_of_In. now apply elem_of_map_to_list. }
  unfold getPostcodes.
  destruct prefix as [pre|]; [destruct (truthy pre) eqn:Ht|].
  - rewrite filter_In, Hall, startsWith_app. split.
    + intros [Hk Hs]. split; [exact Hk|]. intros pre' Heq _. injection Heq as <-. exact Hs.
    + intros [Hk Hs]. split; [exact Hk | exact (Hs pre eq_refl Ht)].
  - rewrite Hall. split; [intros Hk; split; [exact Hk|] | intros [Hk _]; exact Hk].
    intros pre' Heq Ht'. injection Heq as <-. congruence.
  - rewrite Hall. split; [intros Hk; split; [exact Hk|] | intros [Hk _]; exact Hk].
    intros pre' Heq. discriminate Heq.
Qed.

Lemma getPostcodes_members_witness :
  In (mkPostcode (js "13847") [tile1] 2 None None)
     (getPostcodes (postcodeIndex (sdk postcode_world)) (Some (js "138"))).
Proof.
  apply (proj2 (getPostcodes_members (postcodeIndex (sdk postcode_world)) (Some (js "138"))
                 (mkPostcode (js "13847") [tile1] 2 None None))).
  split.
  - exists (js "13847"). vm_compute. reflexivity.
  - intros pre Heq _. injection Heq as <-. exists (js "47"). vm_compute. reflexivity.
Defined.

(** ** The tile helpers and the queries *)

(** X17: the public tile helpers predict the files the queries read. A
    [searchByNumber] with a bbox and no region reads the files of exactly
    the tiles [getTilesForBbox] returns for that bbox, or nothing; one with
    a non-empty region reads those of [getTilesByRegion]. A [geocode] with
    a bbox whose [getTilesForBbox] has at most 50 tiles reads only files of
    those tiles. *)
Theorem tile_helpers_predict_reads (B : Backend) (w w' : World) (minLat minLon maxLat maxLon : Q) :
  (forall number limit r,
     searchByNumber B number (mkNumOpts None (Some (minLat, minLon, maxLat, maxLon)) limit) w
       = (r, w') ->
     reads w' = reads w \/
     reads w' = reads w ++ map (tile_url (dataUrl (sdk w)))
                             (getTilesForBbox (tileIndex (sdk w)) minLat minLon maxLat maxLon)) /\
  (forall number region bbox limit r, truthy region = true ->
     searchByNumber B number (mkNumOpts (Some region) bbox limit) w = (r, w') ->
     reads w' = reads w \/
     reads w' = reads w ++ map (fun t => tile_url (dataUrl (sdk w)) (h3_tile t))
                             (getTilesByRegion (tileIndex (sdk w)) region)) /\
  (forall address limit region r,
     (length (getTilesForBbox (tileIndex (sdk w)) minLat minLon maxLat maxLon) <= 50)%nat ->
     geocode B address (mkGeoOpts limit (Some (minLat, minLon, maxLat, maxLon)) region) w
       = (r, w') ->
     exists urls, reads w' = reads w ++ urls /\
       incl urls (map (tile_url (dataUrl (sdk w)))
                    (getTilesForBbox (tileIndex (sdk w)) minLat minLon maxLat maxLon))).
Proof.
  split; [|split].
  - intros number limit r H.
    destruct (searchByNumber_reads_any B _ _ w w' r H) as [_ Hr].
    unfold getTilesForBbox. rewrite map_map. exact Hr.
  - intros number region bbox limit r Ht H.
    destruct (searchByNumber_reads_any B _ _ w w' r H) as [_ Hr].
    unfold number_tiles in Hr. cbn [no_region no_bbox] in Hr. rewrite Ht in Hr. exact Hr.
  - intros address limit region r Hlen H.
    destruct (geocode_reads_any B _ _ w w' r H) as [urls [Hr Hincl]].
    exists urls. split; [exact Hr|].
    unfold geocode_urls, getTilesForBbox in *. cbn [geocode_candidates go_bbox] in Hincl.
    rewrite length_map in Hlen.
    unfold cap_tiles in Hincl. unfold MAX_TILES in Hincl at 1.
    replace (50 <? length _)%nat with false in Hincl by (symmetry; apply Nat.ltb_ge; exact Hlen).
    rewrite map_map. exact Hincl.
Qed.

Lemma tile_helpers_predict_reads_witness :
  exists r w',
    searchByNumber (riyadh_backend riyadh_rows false) (js "12")
      (mkNumOpts None (Some (24, 46, 25, 47)%Q) None) riyadh_world = (r, w') /\
    (reads w' = reads riyadh_world \/
     reads w' = reads riyadh_world ++
                  map (tile_url (dataUrl (sdk riyadh_world)))
                    (getTilesForBbox (tileIndex (sdk riyadh_world)) 24 46 25 47)).
Proof.
  case_eq (searchByNumber (riyadh_backend riyadh_rows false) (js "12")
             (mkNumOpts None (Some (24, 46, 25, 47)%Q) None) riyadh_world).
  intros r w' E. exists r, w'. split; [reflexivity|].
  exact (proj1 (tile_helpers_predict_reads (riyadh_backend riyadh_rows false) riyadh_world w'
                  24 46 25 47) _ _ _ E).
Defined.

(** ** [initialize] *)

(** X18: a successful first [initialize] leaves the instance initialized,
    with the FTS flag telling whether [LOAD fts] succeeded, the tile index
    read at the final base location, the loaded tiles untouched, and the
    postcode index equal to the old map updated with the rows of the
    postcode index file, or unchanged when that file cannot be read. It
    reads, in order: the tile index at the configured location (and at
    the default location after a failure there, which then becomes the
    base location), then the postcode index and the three boundary files
    at the base location. *)
Theorem initialize_success_state (B : Backend) (w w' : World) :
  initialized (sdk w) = false ->
  initialize B w = (Ok tt, w') ->
  initialized (sdk w') = true /\
  ftsAvailable (sdk w') = b_extension B "fts" /\
  loadedTiles (sdk w') = loadedTiles (sdk w) /\
  b_tile_index B (tile_index_url (dataUrl (sdk w'))) = Some (tileIndex (sdk w')) /\
  ((b_postcode_index B (postcode_index_url (dataUrl (sdk w'))) = None /\
    postcodeIndex (sdk w') = postcodeIndex (sdk w)) \/
   exists rows, b_postcode_index B (postcode_index_url (dataUrl (sdk w'))) = Some rows /\
     postcodeIndex (sdk w') = load_postcodes (postcodeIndex (sdk w)) rows) /\
  exists idx_reads,
    reads w' = reads w ++ idx_reads ++
      [postcode_index_url (dataUrl (sdk w')); world_countries_url (dataUrl (sdk w'));
       sa_regions_url (dataUrl (sdk w')); sa_districts_url (dataUrl (sdk w'))] /\
    ((idx_reads = [tile_index_url (dataUrl (sdk w))] /\ dataUrl (sdk w') = dataUrl (sdk w)) \/
     (idx_reads = [tile_index_url (dataUrl (sdk w)); tile_index_url DEFAULT_DATA_URL] /\
      dataUrl (sdk w) <> DEFAULT_DATA_URL /\ dataUrl (sdk w') = DEFAULT_DATA_URL)).
Proof.
  destruct w as [[i f d idx pidx lt0] rd]. cbn [sdk reads initialized ftsAvailable dataUrl
    tileIndex postcodeIndex loadedTiles].
  intros Hi H. subst i.
  unfold initialize, load_tile_index, read_tile_index, read_postcode_index,
    create_view, query_ok in H.
  unfold_monad. init_cbn H. split_matches H.
  all: injection H as Hw; subst w'; cbn -[tile_index_url postcode_index_url
         world_countries_url sa_regions_url sa_districts_url DEFAULT_DATA_URL jseqb].
  all: cbn [sdk reads set_fts set_dataUrl set_tileIndex set_postcodeIndex set_initialized
         initialized ftsAvailable dataUrl tileIndex postcodeIndex loadedTiles] in *.
  all: split; [reflexivity | split; [congruence | split; [reflexivity | split; [assumption|]]]].
  all: split; [first [ left; split; [assumption | reflexivity]
                     | right; eexists; split; [eassumption | reflexivity] ]|].
  all: first
    [ exists [tile_index_url d]; split; [rewrite <- !app_assoc; reflexivity|];
      left; split; reflexivity
    | exists [tile_index_url d; tile_index_url DEFAULT_DATA_URL];
      split; [rewrite <- !app_assoc; reflexivity|];
      right; split; [reflexivity | split; [|reflexivity]];
      intros Heq; subst d;
      match goal with
      | E : context [jseqb ?a ?a] |- _ => rewrite jseqb_refl in E; discriminate E
      end ].
Qed.

Lemma initialize_success_state_witness :
  exists w', initialize fallback_backend fallback_world = (Ok tt, w') /\
    initialized (sdk w') = true /\
    b_tile_index fallback_backend (tile_index_url (dataUrl (sdk w'))) = Some (tileIndex (sdk w')).
Proof.
  destruct (initialize fallback_backend fallback_world) as [[[]|e] w'] eqn:E;
    [| vm_compute in E; discriminate E].
  exists w'. split; [reflexivity|].
  destruct (initialize_success_state fallback_backend fallback_world w' eq_refl E)
    as [Hi [_ [_ [Hidx _]]]].
  split; [exact Hi | exact Hidx].
Defined.

(** ** The loaded tiles *)

Lemma initialize_keeps_loaded (B : Backend) (w w' : World) r :
  initialize B w = (r, w') ->
  loadedTiles (sdk w') = loadedTiles (sdk w) /\
  (initialized (sdk w) = true -> w' = w).
Proof.
  destruct w as [[i f d idx pidx lt0] rd]. cbn [sdk initialized loadedTiles].
  intros H. destruct i.
  - unfold initialize in H. unfold_monad. cbn in H. injection H as _ <-.
    split; reflexivity.
  - split; [|discriminate].
    unfold initialize, load_tile_index, read_tile_index, read_postcode_index,
      create_view, query_ok in H.
    unfold_monad. init_cbn H. split_matches H.
    all: injection H as _ Hw; subst w'; reflexivity.
Qed.

(** X19: the loaded tiles stay consistent over the life of an instance: a
    new instance, [initialize], [close] and [reverseGeocode] keep them
    empty while the instance is not initialized, free of repetitions, and
    tiles of the partition index (the other queries do not change the
    instance). So [getStats] never reports more loaded tiles than the
    index has. *)
Theorem tiles_invariant (B : Backend) :
  (forall cfg, tiles_inv (GeoSDKH3_new cfg)) /\
  (forall w r w', tiles_inv (sdk w) -> initialize B w = (r, w') -> tiles_inv (sdk w')) /\
  (forall w r w', tiles_inv (sdk w) -> close w = (r, w') -> tiles_inv (sdk w')) /\
  (forall w lat lon o r w', tiles_inv (sdk w) ->
     reverseGeocode B lat lon o w = (r, w') -> tiles_inv (sdk w')) /\
  (forall w w' st, tiles_inv (sdk w) -> getStats w = (Ok st, w') ->
     (tilesLoaded st <= totalTiles st)%nat).
Proof.
  split; [|split; [|split; [|split]]].
  - intros cfg. split; [reflexivity | split; [constructor | intros x []]].
  - intros w r w' [Hi [Hnd Hinc]] H.
    destruct (initialize_keeps_loaded B w w' r H) as [Hl Hw].
    destruct (initialized (sdk w)) eqn:Ei.
    + rewrite (Hw eq_refl). split; [intros Hf; congruence | split; assumption].
    + unfold tiles_inv. rewrite Hl, (Hi eq_refl). split; [reflexivity | split; [constructor | intros x []]].
  - intros w r w' _ H. unfold close in H. unfold_monad. injection H as _ <-. cbn.
    split; [reflexivity | split; [constructor | intros x []]].
  - intros w lat lon o r w' [Hi [Hnd Hinc]] H.
    destruct (reverseGeocode_state B lat lon o w w' r H) as [lt [Hs [Hlt Hnd']]].
    rewrite Hs. cbn [initialized loadedTiles tileIndex].
    destruct Hlt as [-> | [res [ti [Hr [Hti [_ ->]]]]]].
    + split; [|split]; assumption.
    + split; [|split; [exact (Hnd' Hnd)|]].
      * intros Hf. cbn [initialized] in Hf. exfalso.
        unfold reverseGeocode, ensureInitialized in H. unfold_monad.
        rewrite Hf in H. cbn in H. injection H as Her _. subst r. discriminate Hr.
      * intros x Hx. apply in_app_or in Hx as [Hx | [<- | []]]; [exact (Hinc x Hx)|].
        now apply in_map.
  - intros w w' st [_ [Hnd Hinc]] H.
    unfold getStats, ensureInitialized in H. unfold_monad. split_matches H.
    injection H as <- _. cbn [tilesLoaded totalTiles].
    rewrite <- (length_map h3_tile (tileIndex (sdk w))).
    apply List.NoDup_incl_length; [apply NoDup_ListNoDup, Hnd | exact Hinc].
Qed.

Lemma tiles_invariant_witness :
  exists r w',
    reverseGeocode (riyadh_backend riyadh_rows false) (247 # 10) (466 # 10)
      (mkRevOpts None None None None) riyadh_world = (r, w') /\ tiles_inv (sdk w').
Proof.
  case_eq (reverseGeocode (riyadh_backend riyadh_rows false) (247 # 10) (466 # 10)
             (mkRevOpts None None None None) riyadh_world).
  intros r w' E. exists r, w'. split; [reflexivity|].
  refine (proj1 (proj2 (proj2 (proj2 (tiles_invariant (riyadh_backend riyadh_rows false)))))
            riyadh_world _ _ _ _ _ _ E).
  split; [discriminate | split; [constructor | intros x []]].
Defined.

(** ** The files [searchByPostcode] reads *)

(** X20: [searchByPostcode(code)] leaves the instance unchanged and reads
    either nothing, when the instance is not initialized or when the
    trimmed, digit-normalized [code] has no entry in the postcode index,
    or, in one request, exactly the files of the tiles that entry lists,
    under the base location. *)
Theorem searchByPostcode_reads_entry (B : Backend) (code : jsstr) (o : PcOpts) (w w' : World) r :
  searchByPostcode B code o w = (r, w') ->
  sdk w' = sdk w /\
  ((reads w' = reads w /\
    (initialized (sdk w) = false \/ postcodeIndex (sdk w) !! toWesternDigits (trim code) = None)) \/
   exists info, initialized (sdk w) = true /\
     postcodeIndex (sdk w) !! toWesternDigits (trim code) = Some info /\
     reads w' = reads w ++ map (tile_url (dataUrl (sdk w))) (pc_tiles info)).
Proof.
  intros H. unfold searchByPostcode, ensureInitialized, read_parquet in H. unfold_monad.
  destruct (initialized (sdk w)) eqn:Ei; cbn in H.
  - destruct (postcodeIndex (sdk w) !! toWesternDigits (trim code)) as [info|] eqn:El;
      cbn in H.
    + destruct (fetch_all B _); cbn in H; injection H as _ <-;
        (split; [reflexivity | right; exists info; split; [reflexivity | split; reflexivity]]).
    + injection H as _ <-. split; [reflexivity | left; split; [reflexivity | now right]].
  - injection H as _ <-. split; [reflexivity | left; split; [reflexivity | now left]].
Qed.

Lemma searchByPostcode_reads_entry_witness :
  exists r w',
    searchByPostcode (riyadh_backend riyadh_rows false) arabic_13847 (mkPcOpts None None)
      postcode_world = (r, w') /\
    reads w' = reads postcode_world ++ [tile_url DEFAULT_DATA_URL tile1].
Proof.
  case_eq (searchByPostcode (riyadh_backend riyadh_rows false) arabic_13847
             (mkPcOpts None None) postcode_world).
  intros r w' E. exists r, w'. split; [reflexivity|].
  destruct (searchByPostcode_reads_entry _ _ _ _ _ _ E) as [_ [[_ [Hf | Hn]] | [info [_ [Hl Hr]]]]].
  - discriminate Hf.
  - vm_compute in Hn. discriminate Hn.
  - rewrite Hr. vm_compute in Hl. injection Hl as <-. reflexivity.
Defined.

Lemma toWesternDigits_spec_witness :
  nth_error (toWesternDigits persian_13847) 2%nat = Some 56.
Proof.
  rewrite (proj1 (proj2 (toWesternDigits_spec persian_13847)) 2%nat 1784 eq_refl).
  reflexivity.
Defined.
